(** * The process watchdog of [utils/watchdog.py]

    A shallow embedding of the two watchdog engines ([WatchdogPosix], driven by
    SIGALRM, and [WatchdogWindows], a polling thread) and of the activity
    window, followed by the properties of the specification.

    Conventions of the embedding.
    - Python [int]s are [Z]; timestamps and the other [float]s are exact
      rationals [Q] (the rounding of binary floating point is not modelled).
    - Everything the process observes from outside (the successive values of
      [time.time()], of the [ps] query, whether a logging call raises, whether
      [psutil] could be imported, the platform) is an oracle in [Env].
    - Effects are threaded through a result monad with three outcomes: normal
      return, a raised exception, and the death of the process by an
      uncatchable kill.  Every effect is also appended to a chronological
      [trace]. *)

From Stdlib Require Import ZArith QArith Qround Lqa Lia List Sorted String Bool Arith.
Import ListNotations.

(** ** Python values *)

(** The meaning of [/] on two [int]s depends on the interpreter: floor division
    on Python 2 (the module has no [from __future__ import division]), true
    division on Python 3.  The model keeps both. *)
Inductive PyVersion : Type := Py2 | Py3.

(** [int(x)] on a number: truncation toward zero. *)
Definition py_int (x : Q) : Z := Z.quot (Qnum x) (Zpos (Qden x)).

(** [a / b] on two [int]s. *)
Definition py_div (v : PyVersion) (a b : Z) : Q :=
  match v with
  | Py2 => inject_Z (a / b)
  | Py3 => (inject_Z a / inject_Z b)%Q
  end.

(** Truth value of an optional [int]: [None] and [0] are false. *)
Definition truthy (x : option Z) : bool :=
  match x with
  | None => false
  | Some n => negb (n =? 0)%Z
  end.

(** [a < b] on rationals, as a boolean. *)
Definition Qltb (a b : Q) : bool := negb (Qle_bool b a).

Inductive Exn : Type :=
| AttributeError
| TypeError
| NotImplementedError
| LogFailure.

(** ** The classes of the module and attribute lookup *)

(** The functions defined in the module. *)
Inductive Func : Type :=
| fn_Watchdog_destruct
| fn_Watchdog_reset
| fn_Watchdog_watch
| fn_Windows_init
| fn_Windows_destruct
| fn_Windows_reset
| fn_Windows_watch
| fn_Windows_run
| fn_Posix_init
| fn_Posix_self_destruct
| fn_Posix_destruct
| fn_Posix_is_frenetic
| fn_Posix_reset
| fn_builtin (qualname : string).

Unset Elimination Schemes.
Inductive PyClass : Type :=
| mkClass (name : string) (bases : list PyClass) (dict : list (string * Func)).
Set Elimination Schemes.

Fixpoint assoc (a : string) (d : list (string * Func)) : option Func :=
  match d with
  | [] => None
  | (k, f) :: d' => if String.eqb a k then Some f else assoc a d'
  end.

(** Attribute lookup on a class: its own dictionary, then its bases from left
    to right. *)
Fixpoint class_getattr (c : PyClass) (a : string) : option Func :=
  match c with
  | mkClass _ bases dict =>
      match assoc a dict with
      | Some f => Some f
      | None =>
          (fix in_bases (bs : list PyClass) : option Func :=
             match bs with
             | [] => None
             | b :: bs' =>
                 match class_getattr b a with
                 | Some f => Some f
                 | None => in_bases bs'
                 end
             end) bases
      end
  end.

Definition object_cls : PyClass :=
  mkClass "object" [] [("__init__", fn_builtin "object.__init__")]%string.

Definition Thread_cls : PyClass :=
  mkClass "Thread" [object_cls]
    [("__init__", fn_builtin "Thread.__init__");
     ("start", fn_builtin "Thread.start");
     ("run", fn_builtin "Thread.run");
     ("join", fn_builtin "Thread.join")]%string.

(** [class Watchdog(object)], lines 25-33. *)
Definition Watchdog_cls : PyClass :=
  mkClass "Watchdog" [object_cls]
    [("destruct", fn_Watchdog_destruct);
     ("reset", fn_Watchdog_reset);
     ("watch", fn_Watchdog_watch)]%string.

(** [class WatchdogWindows(Watchdog, threading.Thread)], lines 36-66. *)
Definition WatchdogWindows_cls : PyClass :=
  mkClass "WatchdogWindows" [Watchdog_cls; Thread_cls]
    [("__init__", fn_Windows_init);
     ("destruct", fn_Windows_destruct);
     ("reset", fn_Windows_reset);
     ("watch", fn_Windows_watch);
     ("run", fn_Windows_run)]%string.

(** [class WatchdogPosix(object)], lines 69-148. *)
Definition WatchdogPosix_cls : PyClass :=
  mkClass "WatchdogPosix" [object_cls]
    [("__init__", fn_Posix_init);
     ("self_destruct", fn_Posix_self_destruct);
     ("destruct", fn_Posix_destruct);
     ("_is_frenetic", fn_Posix_is_frenetic);
     ("reset", fn_Posix_reset)]%string.

(** ** The world of the process *)

Inductive LogLevel : Type := DEBUG | ERROR.

Inductive LogMsg : Type :=
| SelfDestructing          (* "Self-destructing..." *)
| Traceback                (* traceback.format_exc() *)
| ResettingFor (d : Z).    (* "Resetting watchdog for %d" % d *)

Inductive Event : Type :=
| EvSignal (h : Func)             (* signal.signal(signal.SIGALRM, h) *)
| EvSetrlimit (soft hard : Z)     (* resource.setrlimit(RLIMIT_AS, (soft, hard)) *)
| EvPs (rss : Z)                  (* ps -p <pid> -o rss | tail -1 *)
| EvTime (t : Q)                  (* time.time() *)
| EvLog (l : LogLevel) (m : LogMsg) (raised : bool)
| EvAlarm (d : Z)                 (* signal.alarm(d) *)
| EvKill                          (* os.kill(os.getpid(), signal.SIGKILL) *)
| EvPsutilKill                    (* psutil.Process().kill() *)
| EvAcquire                       (* self.tlock.__enter__() *)
| EvRelease                       (* self.tlock.__exit__() *)
| EvRead (field : string)         (* load of an attribute of the instance *)
| EvWrite (field : string)        (* store to an attribute of the instance *)
| EvSleep (s : Q)                 (* time.sleep(s) *)
| EvStart.                        (* threading.Thread.start() *)

(** What the process observes and cannot change. *)
Record Env : Type := {
  clock : nat -> Q;           (* the n-th value returned by time.time() *)
  ps_rss : nat -> Z;          (* the n-th resident size printed by ps, in kB *)
  log_fails : nat -> bool;    (* does the n-th logging call raise? *)
  psutil : bool;              (* did [import psutil] succeed? *)
  is_windows : bool           (* Platform.is_windows() *)
}.

Record World : Type := {
  env : Env;
  clock_reads : nat;
  ps_reads : nat;
  log_calls : nat;
  sigalrm : option Func;          (* installed SIGALRM handler *)
  rlimit_as : option (Z * Z);     (* (soft, hard) address-space limit set *)
  alarm : option Z;               (* seconds of the pending alarm *)
  trace : list Event
}.

Definition boot (e : Env) : World :=
  {| env := e; clock_reads := 0; ps_reads := 0; log_calls := 0;
     sigalrm := None; rlimit_as := None; alarm := None; trace := [] |}.

Definition emit (ev : Event) (w : World) : World :=
  {| env := env w; clock_reads := clock_reads w; ps_reads := ps_reads w;
     log_calls := log_calls w; sigalrm := sigalrm w; rlimit_as := rlimit_as w;
     alarm := alarm w; trace := trace w ++ [ev] |}.

Definition tick_clock (w : World) : World :=
  {| env := env w; clock_reads := S (clock_reads w); ps_reads := ps_reads w;
     log_calls := log_calls w; sigalrm := sigalrm w; rlimit_as := rlimit_as w;
     alarm := alarm w; trace := trace w |}.

Definition tick_ps (w : World) : World :=
  {| env := env w; clock_reads := clock_reads w; ps_reads := S (ps_reads w);
     log_calls := log_calls w; sigalrm := sigalrm w; rlimit_as := rlimit_as w;
     alarm := alarm w; trace := trace w |}.

Definition tick_log (w : World) : World :=
  {| env := env w; clock_reads := clock_reads w; ps_reads := ps_reads w;
     log_calls := S (log_calls w); sigalrm := sigalrm w;
     rlimit_as := rlimit_as w; alarm := alarm w; trace := trace w |}.

Definition set_sigalrm (h : Func) (w : World) : World :=
  {| env := env w; clock_reads := clock_reads w; ps_reads := ps_reads w;
     log_calls := log_calls w; sigalrm := Some h; rlimit_as := rlimit_as w;
     alarm := alarm w; trace := trace w |}.

Definition set_rlimit_as (lim : Z * Z) (w : World) : World :=
  {| env := env w; clock_reads := clock_reads w; ps_reads := ps_reads w;
     log_calls := log_calls w; sigalrm := sigalrm w; rlimit_as := Some lim;
     alarm := alarm w; trace := trace w |}.

Definition set_alarm (a : option Z) (w : World) : World :=
  {| env := env w; clock_reads := clock_reads w; ps_reads := ps_reads w;
     log_calls := log_calls w; sigalrm := sigalrm w; rlimit_as := rlimit_as w;
     alarm := a; trace := trace w |}.

(** ** The result monad *)

Inductive Res (A : Type) : Type :=
| Ret (a : A) (w : World)       (* normal return *)
| Raise (e : Exn) (w : World)   (* an exception propagates *)
| Kill (w : World).             (* the process received SIGKILL: nothing runs after *)

Arguments Ret {A} a w.
Arguments Raise {A} e w.
Arguments Kill {A} w.

Definition M (A : Type) : Type := World -> Res A.

Definition ret {A : Type} (a : A) : M A := fun w => Ret a w.

Definition bind {A B : Type} (m : M A) (k : A -> M B) : M B :=
  fun w =>
    match m w with
    | Ret a w' => k a w'
    | Raise e w' => Raise e w'
    | Kill w' => Kill w'
    end.

Definition raise {A : Type} (e : Exn) : M A := fun w => Raise e w.

Declare Scope py_scope.
Delimit Scope py_scope with py.
Notation "x <- m ;; k" := (bind m (fun x => k))
  (at level 100, m at next level, right associativity) : py_scope.
Notation "m ;; k" := (bind m (fun _ => k))
  (at level 100, right associativity) : py_scope.
Open Scope py_scope.

(** [try: body finally: fin].  The [finally] block runs after a normal return
    and after an exception; an exception raised by it replaces the pending
    one.  Nothing runs in a process that was killed. *)
Definition try_finally {A : Type} (body : M A) (fin : M unit) : M A :=
  fun w =>
    match body w with
    | Ret a w1 =>
        match fin w1 with
        | Ret _ w2 => Ret a w2
        | Raise e w2 => Raise e w2
        | Kill w2 => Kill w2
        end
    | Raise e w1 =>
        match fin w1 with
        | Ret _ w2 => Raise e w2
        | Raise e' w2 => Raise e' w2
        | Kill w2 => Kill w2
        end
    | Kill w1 => Kill w1
    end.

(** The world in which a computation stopped, whatever the outcome. *)
Definition final {A : Type} (r : Res A) : World :=
  match r with
  | Ret _ w => w
  | Raise _ w => w
  | Kill w => w
  end.

Definition killed {A : Type} (r : Res A) : bool :=
  match r with
  | Kill _ => true
  | _ => false
  end.

(** ** Primitive effects *)

Definition time_time : M Q :=
  fun w =>
    let t := clock (env w) (clock_reads w) in
    Ret t (emit (EvTime t) (tick_clock w)).

(** [int(os.popen('ps -p %d -o %s | tail -1' % (os.getpid(), 'rss')).read())] *)
Definition ps_rss_kb : M Z :=
  fun w =>
    let r := ps_rss (env w) (ps_reads w) in
    Ret r (emit (EvPs r) (tick_ps w)).

Definition log_call (l : LogLevel) (m : LogMsg) : M unit :=
  fun w =>
    let failed := log_fails (env w) (log_calls w) in
    let w' := emit (EvLog l m failed) (tick_log w) in
    if failed then Raise LogFailure w' else Ret tt w'.

Definition signal_SIGALRM (h : Func) : M unit :=
  fun w => Ret tt (emit (EvSignal h) (set_sigalrm h w)).

(** [resource.setrlimit(resource.RLIMIT_AS, (soft, hard))]: the model records
    the pair; the checks of the system call (a value that does not fit the
    platform's limit type, a hard limit raised without privilege) are not
    modelled. *)
Definition setrlimit_AS (soft hard : Z) : M unit :=
  fun w => Ret tt (emit (EvSetrlimit soft hard) (set_rlimit_as (soft, hard) w)).

(** [signal.alarm(d)] for an argument that fits the call, [0 <= d < 2 ^ 31]:
    the alarm is armed for [d] seconds, and a zero argument cancels the
    pending alarm.  Outside that range the call raises [OverflowError]
    ([2 ^ 31 <= d]) or arms the alarm for [2 ^ 32 + d] seconds ([d < 0]);
    statements about the armed alarm carry the range as a hypothesis. *)
Definition signal_alarm (d : Z) : M unit :=
  fun w =>
    Ret tt (emit (EvAlarm d) (set_alarm (if (d =? 0)%Z then None else Some d) w)).

(** [os.kill(os.getpid(), signal.SIGKILL)]: the process dies in the call. *)
Definition os_kill_self : M unit := fun w => Kill (emit EvKill w).

(** [psutil.Process().kill()]: kills the current process; when [psutil] is
    [None] the attribute access raises. *)
Definition psutil_kill_self : M unit :=
  fun w =>
    if psutil (env w) then Kill (emit EvPsutilKill w) else Raise AttributeError w.

(** [time.sleep(s)] for a non-negative [s]; the call raises [ValueError] on a
    negative argument, so statements about a sleeping loop carry
    [0 <= s] as a hypothesis. *)
Definition time_sleep (s : Q) : M unit := fun w => Ret tt (emit (EvSleep s) w).

Definition thread_start : M unit := fun w => Ret tt (emit EvStart w).

Definition event (ev : Event) : M unit := fun w => Ret tt (emit ev w).

(** [getattr(cls, name)] on a class object. *)
Definition getattr_cls (c : PyClass) (a : string) : M Func :=
  match class_getattr c a with
  | Some f => ret f
  | None => raise AttributeError
  end.

(** ** The abstract contract, [class Watchdog], lines 25-33 *)

Module Watchdog.

Definition destruct : M unit := raise NotImplementedError.

Definition reset : M unit := raise NotImplementedError.

Definition watch : M unit := raise NotImplementedError.

End Watchdog.

(** ** The polling engine, [class WatchdogWindows] *)

Module WatchdogWindows.

Record t : Type := {
  _duration : Z;
  expire_at : option Q      (* unset until the first [reset] *)
}.

(** [with self.tlock: body]: the lock is released however [body] ends. *)
Definition with_tlock {A : Type} (body : M A) : M A :=
  event EvAcquire;; try_finally body (event EvRelease).

(** Lines 46-52. *)
Definition destruct : M unit :=
  try_finally
    (log_call ERROR SelfDestructing;;
     log_call ERROR Traceback)
    psutil_kill_self.

(** Lines 54-57. *)
Definition reset (self : t) : M t :=
  log_call DEBUG (ResettingFor (_duration self));;
  with_tlock
    (now <- time_time;;
     event (EvWrite "expire_at");;
     ret {| _duration := _duration self;
            expire_at := Some (now + inject_Z (_duration self))%Q |}).

Definition load_expire_at (self : t) : M Q :=
  event (EvRead "expire_at");;
  match expire_at self with
  | Some e => ret e
  | None => raise AttributeError
  end.

(** One turn of the [while True] loop of [watch], lines 61-63. *)
Definition watch_body (v : PyVersion) (self : t) : M unit :=
  now <- time_time;;
  deadline <- load_expire_at self;;
  (if Qltb deadline now then destruct else ret tt);;
  time_sleep (py_div v (_duration self) 20).

(** [watch], lines 59-63: the loop has no exit; [fuel] bounds the number of
    turns unfolded, and a normal return only means that the fuel ran out. *)
Fixpoint watch (v : PyVersion) (fuel : nat) (self : t) : M unit :=
  match fuel with
  | O => ret tt
  | S n => watch_body v self;; watch v n self
  end.

(** [run], lines 65-66: the body of the thread. *)
Definition run (v : PyVersion) (fuel : nat) (self : t) : M unit :=
  watch v fuel self.

(** [__init__], lines 38-44.  The thread started on line 44 executes [run]
    on the instance returned here. *)
Definition __init__ (duration : Q) : M t :=
  let self := {| _duration := py_int duration; expire_at := None |} in
  self' <- reset self;;
  thread_start;;
  ret self'.

End WatchdogWindows.

(** ** The timer-driven engine, [class WatchdogPosix] *)

Module WatchdogPosix.

(** Activity history timeframe, line 81. *)
Definition _RESTART_TIMEFRAME : Q := 60.

Record t : Type := {
  _duration : Z;
  _max_mem_kb : option Z;          (* set only with a memory ceiling *)
  memory_limit_enabled : bool;
  _restarts : list Q;              (* the deque, leftmost first *)
  _max_resets : option Z
}.

Definition set_restarts (r : list Q) (self : t) : t :=
  {| _duration := _duration self; _max_mem_kb := _max_mem_kb self;
     memory_limit_enabled := memory_limit_enabled self;
     _restarts := r; _max_resets := _max_resets self |}.

(** [self_destruct(signum, frame)], lines 101-110; the arguments are unused. *)
Definition self_destruct : M unit :=
  try_finally
    (log_call ERROR SelfDestructing;;
     log_call ERROR Traceback)
    os_kill_self.

(** Lines 112-113. *)
Definition destruct : M unit := self_destruct.

(** Lines 88-99 of [__init__]: the memory threshold and the activity
    monitoring. *)
Definition init_monitoring (duration : Z) (max_mem_mb max_resets : option Z)
  : M t :=
  match max_mem_mb with
  | Some mb =>
      let max_mem_kb := (1024 * mb)%Z in
      let max_mem_bytes := (1024 * max_mem_kb)%Z in
      setrlimit_AS max_mem_bytes max_mem_bytes;;
      ret {| _duration := duration; _max_mem_kb := Some max_mem_kb;
             memory_limit_enabled := true;
             _restarts := []; _max_resets := max_resets |}
  | None =>
      ret {| _duration := duration; _max_mem_kb := None;
             memory_limit_enabled := false;
             _restarts := []; _max_resets := max_resets |}
  end.

(** [__init__], lines 83-99.  Line 86 names the handler as an attribute of
    the class [Watchdog]. *)
Definition __init__ (duration : Q) (max_mem_mb max_resets : option Z) : M t :=
  let d := py_int duration in
  handler <- getattr_cls Watchdog_cls "self_destruct";;
  signal_SIGALRM handler;;
  init_monitoring d max_mem_mb max_resets.

(** The loop of lines 122-123: pop from the left while the leftmost entry is
    older than the timeframe. *)
Fixpoint flush (now : Q) (restarts : list Q) : list Q :=
  match restarts with
  | [] => []
  | t0 :: rest =>
      if Qltb t0 (now - _RESTART_TIMEFRAME)%Q then flush now rest
      else restarts
  end.

(** [len(self._restarts) > self._max_resets].  An [int] compares greater than
    [None] on Python 2 and is not comparable with it on Python 3. *)
Definition len_gt (v : PyVersion) (restarts : list Q) (cap : option Z)
  : M bool :=
  match cap with
  | Some n => ret (n <? Z.of_nat (List.length restarts))%Z
  | None => match v with Py2 => ret true | Py3 => raise TypeError end
  end.

(** [_is_frenetic], lines 115-125. *)
Definition _is_frenetic (v : PyVersion) (self : t) : M (bool * t) :=
  now <- time_time;;
  let self' := set_restarts (flush now (_restarts self)) self in
  b <- len_gt v (_restarts self') (_max_resets self');;
  ret (b, self').

(** Lines 134-138 of [reset]. *)
Definition check_memory (self : t) : M unit :=
  if memory_limit_enabled self then
    mem_usage_kb <- ps_rss_kb;;
    match _max_mem_kb self with
    | Some max_mem_kb =>
        if Qltb ((95 # 100) * inject_Z max_mem_kb)%Q (inject_Z mem_usage_kb)
        then destruct
        else ret tt
    | None => raise AttributeError
    end
  else ret tt.

(** Lines 140-144 of [reset]. *)
Definition check_activity (v : PyVersion) (self : t) : M t :=
  if truthy (_max_resets self) then
    now <- time_time;;
    let self1 := set_restarts (_restarts self ++ [now]) self in
    r <- _is_frenetic v self1;;
    let '(frenetic, self2) := r in
    (if frenetic then destruct else ret tt);;
    ret self2
  else ret self.

(** Lines 146-148 of [reset]. *)
Definition rearm (self : t) : M unit :=
  log_call DEBUG (ResettingFor (_duration self));;
  signal_alarm (_duration self).

(** [reset], lines 127-148. *)
Definition reset (v : PyVersion) (self : t) : M t :=
  check_memory self;;
  self' <- check_activity v self;;
  rearm self';;
  ret self'.

(** [n] successive calls of [reset] by the owning process. *)
Fixpoint resets (v : PyVersion) (n : nat) (self : t) : M t :=
  match n with
  | O => ret self
  | S n' => self' <- reset v self;; resets v n' self'
  end.

End WatchdogPosix.

(** ** The factory, lines 151-155 *)

Inductive AnyWatchdog : Type :=
| OnWindows (x : WatchdogWindows.t)
| OnPosix (x : WatchdogPosix.t).

Definition new_watchdog (duration : Q) (max_mem_mb max_resets : option Z)
  : M AnyWatchdog :=
  fun w =>
    if is_windows (env w)
    then (x <- WatchdogWindows.__init__ duration;; ret (OnWindows x)) w
    else (x <- WatchdogPosix.__init__ duration max_mem_mb max_resets;;
          ret (OnPosix x)) w.

(** ** The lock discipline on the deadline, as a property of a thread's trace *)

(** [guarded held tr]: every load and store of [expire_at] in [tr] happens
    while the thread holds the lock, [held] being the hold count of the
    re-entrant lock at the start. *)
Fixpoint guarded (held : nat) (tr : list Event) : bool :=
  match tr with
  | [] => true
  | EvAcquire :: tr' => guarded (S held) tr'
  | EvRelease :: tr' => guarded (pred held) tr'
  | EvRead f :: tr' | EvWrite f :: tr' =>
      (if String.eqb f "expire_at" then (0 <? held)%nat else true)
      && guarded held tr'
  | _ :: tr' => guarded held tr'
  end.

(** ** Observations used in the statements *)

Definition is_error_log (ev : Event) : bool :=
  match ev with
  | EvLog ERROR _ _ => true
  | _ => false
  end.

(** The records that [destruct] tries to log, given which calls raise. *)
Definition destruct_logs (e : Env) (n : nat) : list Event :=
  if log_fails e n then [EvLog ERROR SelfDestructing true]
  else [EvLog ERROR SelfDestructing false;
        EvLog ERROR Traceback (log_fails e (S n))].

(** The world in which [destruct] leaves the process, [killer] being the kill
    it issues. *)
Definition destructed (killer : Event) (w : World) : World :=
  {| env := env w; clock_reads := clock_reads w; ps_reads := ps_reads w;
     log_calls := (if log_fails (env w) (log_calls w) then 1 else 2)
                  + log_calls w;
     sigalrm := sigalrm w; rlimit_as := rlimit_as w; alarm := alarm w;
     trace := trace w ++ destruct_logs (env w) (log_calls w) ++ [killer] |}.

(** Does the memory check of [reset] trip on the resident size [rss]? *)
Definition mem_trips (self : WatchdogPosix.t) (rss : Z) : bool :=
  WatchdogPosix.memory_limit_enabled self &&
  match WatchdogPosix._max_mem_kb self with
  | Some kb => Qltb ((95 # 100) * inject_Z kb)%Q (inject_Z rss)
  | None => false
  end.

(** The world after one call of [time.time()]. *)
Definition read_clock (w : World) : World :=
  emit (EvTime (clock (env w) (clock_reads w))) (tick_clock w).

(** The world after the [ps] query, when the ceiling is configured. *)
Definition after_memory (self : WatchdogPosix.t) (w : World) : World :=
  if WatchdogPosix.memory_limit_enabled self
  then emit (EvPs (ps_rss (env w) (ps_reads w))) (tick_ps w)
  else w.

(** The activity window after one activity check that starts at clock reading
    [r]: reading [r] is appended, and the flush uses reading [r + 1]. *)
Definition next_window (e : Env) (r : nat) (win : list Q) : list Q :=
  WatchdogPosix.flush (clock e (S r)) (win ++ [clock e r]).

(** The activity window after [n] such checks. *)
Fixpoint window_after (e : Env) (r n : nat) (win : list Q) : list Q :=
  match n with
  | O => win
  | S n' => window_after e (S (S r)) n' (next_window e r win)
  end.

(** [len(win) > cap] for a configured cap. *)
Definition over_cap (cap : option Z) (win : list Q) : bool :=
  match cap with
  | Some n => (n <? Z.of_nat (List.length win))%Z
  | None => false
  end.

(** The world after the logging call of the re-arming, and after the alarm. *)
Definition after_rearm_log (self : WatchdogPosix.t) (w : World) : World :=
  emit (EvLog DEBUG (ResettingFor (WatchdogPosix._duration self))
          (log_fails (env w) (log_calls w)))
       (tick_log w).

Definition after_rearm (self : WatchdogPosix.t) (w : World) : World :=
  let d := WatchdogPosix._duration self in
  emit (EvAlarm d)
    (set_alarm (if (d =? 0)%Z then None else Some d) (after_rearm_log self w)).

(** The memory fields of an instance built by the constructor agree. *)
Definition consistent (self : WatchdogPosix.t) : Prop :=
  WatchdogPosix.memory_limit_enabled self = true ->
  WatchdogPosix._max_mem_kb self <> None.

(** An environment in which neither the memory check trips nor a logging call
    raises, for an instance whose memory fields are consistent. *)
Definition calm (self : WatchdogPosix.t) (e : Env) : Prop :=
  (forall k, mem_trips self (ps_rss e k) = false)
  /\ (forall k, log_fails e k = false)
  /\ consistent self.

(** ** Further observations *)

Definition rss_now (w : World) : Z := ps_rss (env w) (ps_reads w).

(** The events that a computation appends to the trace of [w]. *)
Definition added {A : Type} (m : M A) (w : World) : list Event :=
  skipn (List.length (trace w)) (trace (final (m w))).

(** The world after the load of [self.expire_at] that follows a clock
    reading. *)
Definition after_check (w : World) : World :=
  emit (EvRead "expire_at") (read_clock w).

(** The world after a turn of the loop of [watch] that slept [s] seconds. *)
Definition after_turn (s : Q) (w : World) : World :=
  emit (EvSleep s) (after_check w).

Definition no_clock {A : Type} (m : M A) : Prop :=
  forall w, clock_reads (final (m w)) = clock_reads w.

(** The stamp appended by the reset number [i] of a run that starts at clock
    reading [r]. *)
Definition stamp (e : Env) (r i : nat) : Q := clock e (2 * i + r).

(** After [k] resets the window holds the stamps of a final segment of the
    resets, all within 60 seconds of the last one. *)
Definition stamps_window (e : Env) (r k : nat) (win : list Q) : Prop :=
  exists lo m,
    win = map (stamp e r) (seq lo m)
    /\ (lo + m = k)%nat
    /\ ((0 < m)%nat -> (stamp e r (k - 1) - 60 <= stamp e r lo)%Q).

(** ** Concrete instances and environments *)

(** A world in which every logging call raises. *)
Definition broken_logger_env : Env :=
  {| clock := fun _ => 0%Q; ps_rss := fun _ => 0%Z;
     log_fails := fun _ => true; psutil := true; is_windows := true |}.

(** A ceiling of 100 MB, i.e. 102400 kB. *)
Definition ceiling_100 : WatchdogPosix.t :=
  {| WatchdogPosix._duration := 5;
     WatchdogPosix._max_mem_kb := Some (1024 * 100)%Z;
     WatchdogPosix.memory_limit_enabled := true;
     WatchdogPosix._restarts := [];
     WatchdogPosix._max_resets := None |}.

Definition rss_env (rss : Z) : Env :=
  {| clock := fun n => inject_Z (Z.of_nat n); ps_rss := fun _ => rss;
     log_fails := fun _ => false; psutil := true; is_windows := false |}.

(** [WatchdogPosix(5, max_resets=3)]. *)
Definition capped_3 : WatchdogPosix.t :=
  {| WatchdogPosix._duration := 5;
     WatchdogPosix._max_mem_kb := None;
     WatchdogPosix.memory_limit_enabled := false;
     WatchdogPosix._restarts := [];
     WatchdogPosix._max_resets := Some 3%Z |}.

(** [WatchdogPosix(5, max_resets=0)]. *)
Definition capped_0 : WatchdogPosix.t :=
  {| WatchdogPosix._duration := 5;
     WatchdogPosix._max_mem_kb := None;
     WatchdogPosix.memory_limit_enabled := false;
     WatchdogPosix._restarts := [];
     WatchdogPosix._max_resets := Some 0%Z |}.

(** [WatchdogPosix(5, max_mem_mb=100, max_resets=3)]. *)
Definition guarded_100_3 : WatchdogPosix.t :=
  {| WatchdogPosix._duration := 5;
     WatchdogPosix._max_mem_kb := Some (1024 * 100)%Z;
     WatchdogPosix.memory_limit_enabled := true;
     WatchdogPosix._restarts := [];
     WatchdogPosix._max_resets := Some 3%Z |}.

(** A clock that advances by [step] seconds from one reading to the next. *)
Definition ticking_env (step : Z) : Env :=
  {| clock := fun n => inject_Z (step * Z.of_nat n); ps_rss := fun _ => 50000%Z;
     log_fails := fun _ => false; psutil := true; is_windows := false |}.



(** ** Observations for the rest of the module *)

(** Acquisitions minus releases of the lock along a trace. *)
Fixpoint lock_depth (tr : list Event) : Z :=
  match tr with
  | [] => 0
  | EvAcquire :: tr' => 1 + lock_depth tr'
  | EvRelease :: tr' => lock_depth tr' - 1
  | _ :: tr' => lock_depth tr'
  end.

(** The exception with which a computation ended, if any. *)
Definition raised {A : Type} (r : Res A) : option Exn :=
  match r with
  | Raise e _ => Some e
  | _ => None
  end.

(** [m] leaves the observation [f] of the world as it was, however it ends. *)
Definition preserves {X A : Type} (f : World -> X) (m : M A) : Prop :=
  forall w, f (final (m w)) = f w.

(** The stubs of the abstract class, which raise [NotImplementedError]. *)
Definition is_stub (f : Func) : bool :=
  match f with
  | fn_Watchdog_destruct | fn_Watchdog_reset | fn_Watchdog_watch => true
  | _ => false
  end.

(** The instance that [WatchdogWindows.__init__] builds before its first
    [reset]. *)
Definition unset_windows (duration : Q) : WatchdogWindows.t :=
  {| WatchdogWindows._duration := py_int duration;
     WatchdogWindows.expire_at := None |}.

(** The configuration of a timer-driven instance, which no reset changes. *)
Definition same_config (a b : WatchdogPosix.t) : Prop :=
  WatchdogPosix._duration a = WatchdogPosix._duration b
  /\ WatchdogPosix._max_mem_kb a = WatchdogPosix._max_mem_kb b
  /\ WatchdogPosix.memory_limit_enabled a = WatchdogPosix.memory_limit_enabled b
  /\ WatchdogPosix._max_resets a = WatchdogPosix._max_resets b.

(** [t] is no older than the timeframe at time [now]. *)
Definition recent (now t : Q) : bool :=
  negb (Qltb t (now - WatchdogPosix._RESTART_TIMEFRAME)%Q).

(** An environment without [psutil], on a clock of one second per reading. *)
Definition no_psutil_env : Env :=
  {| clock := fun n => inject_Z (Z.of_nat n); ps_rss := fun _ => 0%Z;
     log_fails := fun _ => false; psutil := false; is_windows := true |}.

(** A Windows host on a clock of one second per reading. *)
Definition windows_env : Env :=
  {| clock := fun n => inject_Z (Z.of_nat n); ps_rss := fun _ => 0%Z;
     log_fails := fun _ => false; psutil := true; is_windows := true |}.

(** [WatchdogPosix(5, max_resets=-1)]. *)
Definition capped_minus_1 : WatchdogPosix.t :=
  {| WatchdogPosix._duration := 5;
     WatchdogPosix._max_mem_kb := None;
     WatchdogPosix.memory_limit_enabled := false;
     WatchdogPosix._restarts := [];
     WatchdogPosix._max_resets := Some (-1)%Z |}.

(** [WatchdogPosix(0.5)]. *)
Definition half_second : WatchdogPosix.t :=
  {| WatchdogPosix._duration := py_int (1 # 2);
     WatchdogPosix._max_mem_kb := None;
     WatchdogPosix.memory_limit_enabled := false;
     WatchdogPosix._restarts := [];
     WatchdogPosix._max_resets := None |}.

(** * Properties *)

(** ** Arithmetic and the monad *)

Lemma Qltb_lt (a b : Q) : Qltb a b = true <-> (a < b)%Q.
Proof.
  unfold Qltb. rewrite negb_true_iff, <- not_true_iff_false, Qle_bool_iff.
  split; intro H; lra.
Qed.

Lemma Qltb_ge (a b : Q) : Qltb a b = false <-> (b <= a)%Q.
Proof.
  unfold Qltb. rewrite negb_false_iff, Qle_bool_iff. reflexivity.
Qed.

Lemma py_int_floor (x : Q) : (0 <= x)%Q -> py_int x = Qfloor x.
Proof.
  destruct x as [n d]. unfold py_int, Qfloor, Qle. simpl.
  intro H. apply Z.quot_div_nonneg; lia.
Qed.


Lemma py_int_nonneg (x : Q) : (0 <= x)%Q -> (0 <= py_int x)%Z.
Proof.
  intro H. rewrite (py_int_floor x H).
  change 0%Z with (Qfloor 0). apply Qfloor_resp_le. exact H.
Qed.

Lemma bind_Ret {A B : Type} {m : M A} {w w' : World} {a : A} (k : A -> M B) :
  m w = Ret a w' -> bind m k w = k a w'.
Proof. unfold bind. intros ->. reflexivity. Qed.

Lemma bind_Kill {A B : Type} {m : M A} {w w' : World} (k : A -> M B) :
  m w = Kill w' -> bind m k w = Kill w'.
Proof. unfold bind. intros ->. reflexivity. Qed.

Lemma bind_Raise {A B : Type} {m : M A} {w w' : World} {e : Exn}
  (k : A -> M B) :
  m w = Raise e w' -> bind m k w = Raise e w'.
Proof. unfold bind. intros ->. reflexivity. Qed.

(** Unfold the primitive effects and the world updates. *)
Ltac run :=
  unfold try_finally, bind, ret, raise, event, log_call, time_time, ps_rss_kb,
    os_kill_self, psutil_kill_self, time_sleep, thread_start, signal_alarm,
    signal_SIGALRM, setrlimit_AS, emit, tick_clock, tick_ps, tick_log,
    set_sigalrm, set_rlimit_as, set_alarm;
  cbn [env clock_reads ps_reads log_calls sigalrm rlimit_as alarm trace].

(** ** Projections of the worlds reached *)

Lemma read_clock_fields (w : World) :
  env (read_clock w) = env w
  /\ clock_reads (read_clock w) = S (clock_reads w)
  /\ log_calls (read_clock w) = log_calls w
  /\ alarm (read_clock w) = alarm w
  /\ trace (read_clock w) = trace w ++ [EvTime (clock (env w) (clock_reads w))].
Proof. repeat split. Qed.

Lemma destructed_fields (killer : Event) (w : World) :
  env (destructed killer w) = env w
  /\ clock_reads (destructed killer w) = clock_reads w
  /\ alarm (destructed killer w) = alarm w
  /\ trace (destructed killer w)
     = trace w ++ destruct_logs (env w) (log_calls w) ++ [killer].
Proof. repeat split. Qed.

Lemma after_rearm_log_fields (self : WatchdogPosix.t) (w : World) :
  env (after_rearm_log self w) = env w
  /\ clock_reads (after_rearm_log self w) = clock_reads w
  /\ alarm (after_rearm_log self w) = alarm w
  /\ trace (after_rearm_log self w)
     = trace w ++ [EvLog DEBUG (ResettingFor (WatchdogPosix._duration self))
                     (log_fails (env w) (log_calls w))].
Proof. repeat split. Qed.

Lemma after_rearm_fields (self : WatchdogPosix.t) (w : World) :
  let d := WatchdogPosix._duration self in
  env (after_rearm self w) = env w
  /\ clock_reads (after_rearm self w) = clock_reads w
  /\ alarm (after_rearm self w) = (if (d =? 0)%Z then None else Some d)
  /\ trace (after_rearm self w)
     = trace w ++ [EvLog DEBUG (ResettingFor d)
                     (log_fails (env w) (log_calls w));
                   EvAlarm d].
Proof.
  cbn zeta. repeat split. unfold after_rearm, after_rearm_log, emit.
  cbn [trace set_alarm tick_log]. rewrite <- app_assoc. reflexivity.
Qed.

(** ** Termination path *)

Lemma self_destruct_kills (w : World) :
  WatchdogPosix.self_destruct w = Kill (destructed EvKill w).
Proof.
  unfold WatchdogPosix.self_destruct, destructed, destruct_logs. run.
  destruct (log_fails (env w) (log_calls w)); cbn.
  - rewrite <- !app_assoc. reflexivity.
  - destruct (log_fails (env w) (S (log_calls w))); cbn;
      rewrite <- !app_assoc; reflexivity.
Qed.

Lemma windows_destruct_kills (w : World) :
  psutil (env w) = true ->
  WatchdogWindows.destruct w = Kill (destructed EvPsutilKill w).
Proof.
  intro Hps.
  unfold WatchdogWindows.destruct, destructed, destruct_logs. run.
  destruct (log_fails (env w) (log_calls w)); cbn.
  - rewrite Hps, <- !app_assoc. reflexivity.
  - destruct (log_fails (env w) (S (log_calls w))); cbn;
      rewrite Hps, <- !app_assoc; reflexivity.
Qed.

Lemma windows_destruct_killed (w : World) :
  killed (WatchdogWindows.destruct w) = psutil (env w).
Proof.
  unfold WatchdogWindows.destruct. run.
  destruct (log_fails (env w) (log_calls w)); cbn.
  - destruct (psutil (env w)); reflexivity.
  - destruct (log_fails (env w) (S (log_calls w))); cbn;
      destruct (psutil (env w)); reflexivity.
Qed.

Lemma destruct_logs_shape (e : Env) (n : nat) :
  forallb is_error_log (destruct_logs e n) = true
  /\ exists raised rest,
       destruct_logs e n = EvLog ERROR SelfDestructing raised :: rest.
Proof.
  unfold destruct_logs. destruct (log_fails e n); split; try reflexivity;
    eexists; eexists; reflexivity.
Qed.

(** C8.  On both engines [destruct] ends by issuing the kill whatever the
    logging calls do: for every world, hence for every pattern of logging
    calls that raise, the timer-driven [destruct] kills the process after
    having tried to log "Self-destructing..." (and the traceback when the first
    call returned), its last effect being the SIGKILL sent to itself; and so
    does the polling [destruct] through [psutil], the module it relies on.
    Whether the polling engine kills depends on the presence of [psutil] only,
    never on the logging. *)
Theorem destruct_kills_despite_logging (w : World) :
  (exists w',
      WatchdogPosix.destruct w = Kill w'
      /\ trace w' = trace w ++ destruct_logs (env w) (log_calls w) ++ [EvKill])
  /\ (psutil (env w) = true ->
      exists w',
        WatchdogWindows.destruct w = Kill w'
        /\ trace w' =
           trace w ++ destruct_logs (env w) (log_calls w) ++ [EvPsutilKill])
  /\ killed (WatchdogWindows.destruct w) = psutil (env w)
  /\ forallb is_error_log (destruct_logs (env w) (log_calls w)) = true
  /\ exists raised rest,
       destruct_logs (env w) (log_calls w) =
       EvLog ERROR SelfDestructing raised :: rest.
Proof.
  split; [| split; [| split]].
  - eexists. split.
    + unfold WatchdogPosix.destruct. apply self_destruct_kills.
    + reflexivity.
  - intro Hps. eexists. split.
    + apply windows_destruct_kills. exact Hps.
    + reflexivity.
  - apply windows_destruct_killed.
  - apply destruct_logs_shape.
Qed.

Lemma destruct_kills_despite_logging_witness :
  killed (WatchdogPosix.destruct (boot broken_logger_env)) = true
  /\ killed (WatchdogWindows.destruct (boot broken_logger_env)) = true.
Proof.
  destruct (destruct_kills_despite_logging (boot broken_logger_env))
    as [[w1 [H1 _]] [H2 _]].
  destruct (H2 eq_refl) as [w2 [H2' _]].
  rewrite H1, H2'. split; reflexivity.
Defined.

(** ** Construction of the timer-driven engine *)

(** C1.  Line 86 looks [self_destruct] up on the class [Watchdog], which
    defines only [destruct], [reset] and [watch]: for every duration and
    every option the constructor raises [AttributeError] before any handler
    is installed, and the world is left as it was.  The routine itself is an
    attribute of [WatchdogPosix]. *)
Theorem posix_init_raises_attribute_error
  (duration : Q) (max_mem_mb max_resets : option Z) (w : World) :
  WatchdogPosix.__init__ duration max_mem_mb max_resets w
  = Raise AttributeError w
  /\ class_getattr Watchdog_cls "self_destruct" = None
  /\ class_getattr WatchdogPosix_cls "self_destruct"
     = Some fn_Posix_self_destruct.
Proof.
  split; [| split]; reflexivity.
Qed.

(** ** The memory ceiling *)

Lemma threshold_exceeded_iff (kb rss : Z) :
  Qltb ((95 # 100) * inject_Z kb)%Q (inject_Z rss) = true
  <-> (95 * kb < 100 * rss)%Z.
Proof.
  rewrite Qltb_lt. unfold Qlt, Qmult, inject_Z. cbn [Qnum Qden].
  rewrite Pos.mul_1_r. lia.
Qed.

Lemma check_memory_killed (self : WatchdogPosix.t) (w : World) :
  killed (WatchdogPosix.check_memory self w) = mem_trips self (rss_now w).
Proof.
  unfold WatchdogPosix.check_memory, mem_trips, rss_now.
  destruct (WatchdogPosix.memory_limit_enabled self); [| reflexivity].
  destruct (WatchdogPosix._max_mem_kb self) as [kb |]; [| reflexivity].
  unfold bind, ps_rss_kb. cbn.
  destruct (Qltb _ _); [| reflexivity].
  unfold WatchdogPosix.destruct. rewrite self_destruct_kills. reflexivity.
Qed.

Lemma check_memory_calm (self : WatchdogPosix.t) (w : World) :
  mem_trips self (rss_now w) = false ->
  (WatchdogPosix.memory_limit_enabled self = true ->
   WatchdogPosix._max_mem_kb self <> None) ->
  WatchdogPosix.check_memory self w =
  Ret tt (if WatchdogPosix.memory_limit_enabled self
          then emit (EvPs (rss_now w)) (tick_ps w) else w).
Proof.
  unfold WatchdogPosix.check_memory, mem_trips, rss_now.
  destruct (WatchdogPosix.memory_limit_enabled self); [| reflexivity].
  destruct (WatchdogPosix._max_mem_kb self) as [kb |].
  - cbn. intros Hq _. unfold bind, ps_rss_kb. cbn. rewrite Hq. reflexivity.
  - intros _ H. exfalso. apply H; reflexivity.
Qed.

Lemma check_memory_trips (self : WatchdogPosix.t) (w : World) :
  mem_trips self (rss_now w) = true ->
  exists w',
    WatchdogPosix.check_memory self w = Kill w'
    /\ trace w' = trace w ++ [EvPs (rss_now w)]
                    ++ destruct_logs (env w) (log_calls w) ++ [EvKill]
    /\ clock_reads w' = clock_reads w
    /\ alarm w' = alarm w.
Proof.
  unfold WatchdogPosix.check_memory, mem_trips, rss_now.
  destruct (WatchdogPosix.memory_limit_enabled self); [| discriminate].
  destruct (WatchdogPosix._max_mem_kb self) as [kb |]; [| discriminate].
  cbn. intro Hq. unfold bind, ps_rss_kb. cbn. rewrite Hq.
  unfold WatchdogPosix.destruct. rewrite self_destruct_kills. cbn.
  eexists. split; [reflexivity |]. cbn.
  rewrite <- !app_assoc. repeat split; reflexivity.
Qed.

Lemma reset_killed_by_memory (v : PyVersion) (self : WatchdogPosix.t)
  (w : World) :
  forall w',
    WatchdogPosix.check_memory self w = Kill w' ->
    WatchdogPosix.reset v self w = Kill w'.
Proof.
  intros w' H. unfold WatchdogPosix.reset. apply bind_Kill. exact H.
Qed.

(** C5.  The constructor never reaches the [setrlimit] call of line 92: for
    every duration, every ceiling of [max_mem_mb] megabytes and every cap it
    raises [AttributeError] on line 86, appends no event (in particular no
    [setrlimit]) and leaves the address-space limit of the process as it
    was: started without a limit, the process still has none after the
    constructor has run. *)
Theorem posix_init_installs_no_limit
  (duration : Q) (max_mem_mb : Z) (max_resets : option Z) (w : World) :
  WatchdogPosix.__init__ duration (Some max_mem_mb) max_resets w
  = Raise AttributeError w
  /\ added (WatchdogPosix.__init__ duration (Some max_mem_mb) max_resets) w
     = []
  /\ rlimit_as
       (final (WatchdogPosix.__init__ duration (Some max_mem_mb) max_resets w))
     = rlimit_as w
  /\ rlimit_as
       (final (WatchdogPosix.__init__ duration (Some max_mem_mb) max_resets
                 (boot (env w))))
     = None.
Proof.
  split; [reflexivity |]. split.
  - unfold added. change (final _) with w. apply skipn_all.
  - split; reflexivity.
Qed.

(** Lines 88-93 taken on their own (in the constructor they are behind the
    failing line 86): with a ceiling of [max_mem_mb] megabytes they install
    the address-space limit with soft and hard values both equal to
    [max_mem_mb * 1024 * 1024] bytes and keep [max_mem_mb * 1024] kilobytes
    as the ceiling; the memory check of [reset] on the resulting instance
    kills exactly when the resident size is greater than 95% of those
    [max_mem_mb * 1024] kilobytes. *)
Lemma init_monitoring_limit_and_threshold
  (duration max_mem_mb : Z) (max_resets : option Z) (w : World) :
  exists self w',
    WatchdogPosix.init_monitoring duration (Some max_mem_mb) max_resets w
    = Ret self w'
    /\ rlimit_as w'
       = Some ((max_mem_mb * 1024 * 1024)%Z, (max_mem_mb * 1024 * 1024)%Z)
    /\ trace w'
       = trace w ++ [EvSetrlimit (max_mem_mb * 1024 * 1024)
                                 (max_mem_mb * 1024 * 1024)]
    /\ WatchdogPosix.memory_limit_enabled self = true
    /\ WatchdogPosix._max_mem_kb self = Some (max_mem_mb * 1024)%Z
    /\ forall w2,
         killed (WatchdogPosix.check_memory self w2)
         = Qltb ((95 # 100) * inject_Z (max_mem_mb * 1024))%Q
                (inject_Z (rss_now w2)).
Proof.
  unfold WatchdogPosix.init_monitoring. run.
  replace (1024 * (1024 * max_mem_mb))%Z with (max_mem_mb * 1024 * 1024)%Z
    by lia.
  replace (1024 * max_mem_mb)%Z with (max_mem_mb * 1024)%Z by lia.
  eexists. eexists. split; [reflexivity |].
  repeat split.
  intro w2. rewrite check_memory_killed. reflexivity.
Qed.

(** C3.  For every positive ceiling of [mb] megabytes the memory
    check kills exactly when the resident size is strictly greater than 95% of
    the ceiling; a reset that observes 94% of the ceiling (rounded to a whole
    number of kilobytes either way) passes the memory check, and a reset that
    observes 96% of it is killed by the memory check of that same call. *)
Theorem memory_check_boundary
  (v : PyVersion) (self : WatchdogPosix.t) (mb : Z) (w94 w96 : World) :
  (0 < mb)%Z ->
  WatchdogPosix.memory_limit_enabled self = true ->
  WatchdogPosix._max_mem_kb self = Some (1024 * mb)%Z ->
  (Z.abs (100 * rss_now w94 - 94 * (1024 * mb)) < 100)%Z ->
  (Z.abs (100 * rss_now w96 - 96 * (1024 * mb)) < 100)%Z ->
  (forall w, killed (WatchdogPosix.check_memory self w) = true
             <-> (95 * (1024 * mb) < 100 * rss_now w)%Z)
  /\ WatchdogPosix.check_memory self w94
     = Ret tt (emit (EvPs (rss_now w94)) (tick_ps w94))
  /\ exists w',
       WatchdogPosix.check_memory self w96 = Kill w'
       /\ WatchdogPosix.reset v self w96 = Kill w'.
Proof.
  intros Hmb Hen Hkb H94 H96.
  assert (Hiff : forall w, killed (WatchdogPosix.check_memory self w) = true
                           <-> (95 * (1024 * mb) < 100 * rss_now w)%Z).
  { intro w. rewrite check_memory_killed. unfold mem_trips.
    rewrite Hen, Hkb. cbn. apply threshold_exceeded_iff. }
  split; [exact Hiff |]. split.
  - rewrite check_memory_calm.
    + rewrite Hen. reflexivity.
    + rewrite <- check_memory_killed. apply not_true_is_false.
      intro K. apply Hiff in K. lia.
    + intros _. rewrite Hkb. discriminate.
  - destruct (check_memory_trips self w96) as [w' [Hk _]].
    + rewrite <- check_memory_killed. apply Hiff. lia.
    + exists w'. split; [exact Hk |].
      apply reset_killed_by_memory. exact Hk.
Qed.

Lemma memory_check_boundary_witness :
  killed (WatchdogPosix.check_memory ceiling_100 (boot (rss_env 96256))) = false
  /\ killed (WatchdogPosix.reset Py2 ceiling_100 (boot (rss_env 98304))) = true.
Proof.
  destruct (memory_check_boundary Py2 ceiling_100 100
              (boot (rss_env 96256)) (boot (rss_env 98304)))
    as [_ [H94 [w' [_ Hr]]]]; try reflexivity.
  split.
  - rewrite H94. reflexivity.
  - rewrite Hr. reflexivity.
Defined.

(** ** One call of [reset] on the timer-driven engine *)

Lemma time_time_eq (w : World) :
  time_time w = Ret (clock (env w) (clock_reads w)) (read_clock w).
Proof. reflexivity. Qed.

Lemma after_memory_env (self : WatchdogPosix.t) (w : World) :
  env (after_memory self w) = env w
  /\ clock_reads (after_memory self w) = clock_reads w
  /\ log_calls (after_memory self w) = log_calls w
  /\ alarm (after_memory self w) = alarm w.
Proof.
  unfold after_memory. destruct (WatchdogPosix.memory_limit_enabled self);
    repeat split; reflexivity.
Qed.

Lemma check_memory_passes (self : WatchdogPosix.t) (w : World) :
  consistent self ->
  mem_trips self (rss_now w) = false ->
  WatchdogPosix.check_memory self w = Ret tt (after_memory self w).
Proof.
  intros Hc Hm. rewrite check_memory_calm; auto.
Qed.

Lemma truthy_Some (cap : option Z) :
  truthy cap = true -> exists n, cap = Some n /\ n <> 0%Z.
Proof.
  destruct cap as [n |]; cbn; [| discriminate].
  intro H. exists n. split; [reflexivity |].
  apply negb_true_iff, Z.eqb_neq in H. exact H.
Qed.

Lemma is_frenetic_eq (v : PyVersion) (self : WatchdogPosix.t) (w : World)
  (n : Z) :
  WatchdogPosix._max_resets self = Some n ->
  WatchdogPosix._is_frenetic v self w =
  let win := WatchdogPosix.flush (clock (env w) (clock_reads w))
               (WatchdogPosix._restarts self) in
  Ret (over_cap (Some n) win, WatchdogPosix.set_restarts win self)
      (read_clock w).
Proof.
  intro Hcap. unfold WatchdogPosix._is_frenetic.
  rewrite (bind_Ret _ (time_time_eq w)).
  unfold WatchdogPosix.len_gt. cbn. rewrite Hcap. reflexivity.
Qed.

Lemma check_activity_off (v : PyVersion) (self : WatchdogPosix.t) (w : World) :
  truthy (WatchdogPosix._max_resets self) = false ->
  WatchdogPosix.check_activity v self w = Ret self w.
Proof.
  intro H. unfold WatchdogPosix.check_activity. rewrite H. reflexivity.
Qed.

Lemma check_activity_on (v : PyVersion) (self : WatchdogPosix.t) (w : World) :
  truthy (WatchdogPosix._max_resets self) = true ->
  let win := next_window (env w) (clock_reads w)
               (WatchdogPosix._restarts self) in
  let w2 := read_clock (read_clock w) in
  WatchdogPosix.check_activity v self w =
  if over_cap (WatchdogPosix._max_resets self) win
  then Kill (destructed EvKill w2)
  else Ret (WatchdogPosix.set_restarts win self) w2.
Proof.
  intro Ht. destruct (truthy_Some _ Ht) as [n [Hcap Hn]].
  unfold WatchdogPosix.check_activity. rewrite Ht.
  rewrite (bind_Ret _ (time_time_eq w)).
  erewrite bind_Ret; [| apply is_frenetic_eq with (n := n); exact Hcap ].
  cbn. rewrite Hcap. unfold next_window. cbn.
  destruct (n <? _)%Z.
  - unfold bind, WatchdogPosix.destruct.
    rewrite self_destruct_kills. reflexivity.
  - reflexivity.
Qed.

Lemma rearm_eq (self : WatchdogPosix.t) (w : World) :
  WatchdogPosix.rearm self w =
  if log_fails (env w) (log_calls w)
  then Raise LogFailure (after_rearm_log self w)
  else Ret tt (after_rearm self w).
Proof.
  unfold WatchdogPosix.rearm, after_rearm, after_rearm_log, bind, log_call,
    signal_alarm.
  destruct (log_fails (env w) (log_calls w)); reflexivity.
Qed.

Lemma read_clock_twice_trace (w : World) :
  trace (read_clock (read_clock w)) =
  trace w ++ [EvTime (clock (env w) (clock_reads w));
              EvTime (clock (env w) (S (clock_reads w)))].
Proof.
  unfold read_clock, emit, tick_clock. cbn. rewrite <- app_assoc. reflexivity.
Qed.

Lemma after_memory_trace (self : WatchdogPosix.t) (w : World) :
  trace (after_memory self w) =
  trace w ++ (if WatchdogPosix.memory_limit_enabled self
              then [EvPs (rss_now w)] else []).
Proof.
  unfold after_memory, rss_now.
  destruct (WatchdogPosix.memory_limit_enabled self); cbn.
  - reflexivity.
  - rewrite app_nil_r. reflexivity.
Qed.

(** C7.  The effects of one call of [reset], in order.  The resident size is
    queried first (when a ceiling is configured); if it trips the memory
    check the process is killed there, without any clock reading, window
    update or alarm.  Otherwise the clock is read for the activity check (when
    a cap is configured); if the window is over the cap the process is killed
    there, and the alarm is left as it was.  Only otherwise does the call reach
    the re-arming: the log record first and, when it is written, the call
    [signal.alarm(duration)] as the last effect, which arms the alarm for a
    duration that the call accepts, [0 <= duration < 2 ^ 31]. *)
Theorem reset_order_of_operations
  (v : PyVersion) (self : WatchdogPosix.t) (w : World) :
  consistent self ->
  let d := WatchdogPosix._duration self in
  let cap := WatchdogPosix._max_resets self in
  let win := next_window (env w) (clock_reads w) (WatchdogPosix._restarts self) in
  let mem_evs :=
    if WatchdogPosix.memory_limit_enabled self then [EvPs (rss_now w)] else [] in
  let act_evs :=
    if truthy cap
    then [EvTime (clock (env w) (clock_reads w));
          EvTime (clock (env w) (S (clock_reads w)))]
    else [] in
  if mem_trips self (rss_now w) then
    exists w',
      WatchdogPosix.reset v self w = Kill w'
      /\ trace w' = trace w ++ mem_evs
                      ++ destruct_logs (env w) (log_calls w) ++ [EvKill]
      /\ clock_reads w' = clock_reads w
      /\ alarm w' = alarm w
  else if truthy cap && over_cap cap win then
    exists w',
      WatchdogPosix.reset v self w = Kill w'
      /\ trace w' = trace w ++ mem_evs ++ act_evs
                      ++ destruct_logs (env w) (log_calls w) ++ [EvKill]
      /\ alarm w' = alarm w
  else if log_fails (env w) (log_calls w) then
    exists w',
      WatchdogPosix.reset v self w = Raise LogFailure w'
      /\ trace w' = trace w ++ mem_evs ++ act_evs
                      ++ [EvLog DEBUG (ResettingFor d) true]
      /\ alarm w' = alarm w
  else
    (0 <= d < 2 ^ 31)%Z ->
    exists w',
      WatchdogPosix.reset v self w
      = Ret (if truthy cap then WatchdogPosix.set_restarts win self else self) w'
      /\ trace w' = trace w ++ mem_evs ++ act_evs
                      ++ [EvLog DEBUG (ResettingFor d) false; EvAlarm d]
      /\ alarm w' = (if (d =? 0)%Z then None else Some d).
Proof.
  intros Hc d cap win mem_evs act_evs.
  destruct (mem_trips self (rss_now w)) eqn:Hm.
  - destruct (check_memory_trips self w Hm) as [w' [Hk [Ht [Hr Ha]]]].
    exists w'. split; [apply reset_killed_by_memory; exact Hk |].
    split; [| split]; try assumption.
    rewrite Ht. subst mem_evs. unfold mem_trips in Hm.
    destruct (WatchdogPosix.memory_limit_enabled self); [| discriminate].
    reflexivity.
  - pose proof (check_memory_passes self w Hc Hm) as Hmem.
    destruct (after_memory_env self w) as [He [Hr [Hl Ha]]].
    pose proof (after_memory_trace self w) as Htr. fold mem_evs in Htr.
    set (w1 := after_memory self w) in *.
    unfold WatchdogPosix.reset.
    rewrite (bind_Ret _ Hmem).
    destruct (truthy cap) eqn:Ht; cbn [andb].
    + pose proof (check_activity_on v self w1 Ht) as Hact.
      cbn zeta in Hact. rewrite He, Hr in Hact. fold cap win in Hact.
      pose proof (read_clock_twice_trace w1) as Htr2.
      rewrite He, Hr, Htr in Htr2.
      destruct (read_clock_fields w1) as [He1 [_ [Hl1 [Ha1 _]]]].
      destruct (read_clock_fields (read_clock w1)) as [He2 [_ [Hl2 [Ha2 _]]]].
      set (w2 := read_clock (read_clock w1)) in *.
      assert (Hew2 : env w2 = env w) by congruence.
      assert (Hlw2 : log_calls w2 = log_calls w) by congruence.
      assert (Haw2 : alarm w2 = alarm w) by congruence.
      destruct (over_cap cap win) eqn:Ho.
      * exists (destructed EvKill w2).
        split; [apply bind_Kill; exact Hact |].
        destruct (destructed_fields EvKill w2) as [_ [_ [Had Htd]]].
        rewrite Had, Htd, Htr2, Hew2, Hlw2, Haw2, <- !app_assoc.
        split; reflexivity.
      * rewrite (bind_Ret _ Hact). unfold bind. rewrite rearm_eq.
        rewrite Hew2, Hlw2.
        destruct (after_rearm_log_fields
                    (WatchdogPosix.set_restarts win self) w2)
          as [_ [_ [Hal Htl]]].
        destruct (after_rearm_fields
                    (WatchdogPosix.set_restarts win self) w2)
          as [_ [_ [Har Htre]]].
        rewrite Hew2, Hlw2, Htr2 in Htl, Htre.
        change (WatchdogPosix._duration (WatchdogPosix.set_restarts win self))
          with d in *.
        destruct (log_fails (env w) (log_calls w)); [| intros _]; eexists;
          (split; [reflexivity |]).
        -- rewrite Htl, Hal, Haw2, <- !app_assoc. split; reflexivity.
        -- rewrite Htre, Har, <- !app_assoc. split; reflexivity.
    + rewrite (bind_Ret _ (check_activity_off v self _ Ht)).
      unfold bind. rewrite rearm_eq. rewrite He, Hl.
      destruct (after_rearm_log_fields self w1) as [_ [_ [Hal Htl]]].
      destruct (after_rearm_fields self w1) as [_ [_ [Har Htre]]].
      rewrite He, Hl, Htr in Htl, Htre. fold d in Htl, Har, Htre.
      destruct (log_fails (env w) (log_calls w)); [| intros _]; eexists;
        (split; [reflexivity |]).
      * rewrite Htl, Hal, Ha, <- !app_assoc. split; reflexivity.
      * rewrite Htre, Har, <- !app_assoc. split; reflexivity.
Qed.

(** ** Runs of resets in a calm environment *)

Lemma mem_trips_set_restarts (r : list Q) (self : WatchdogPosix.t) (rss : Z) :
  mem_trips (WatchdogPosix.set_restarts r self) rss = mem_trips self rss.
Proof. reflexivity. Qed.

Lemma calm_set_restarts (r : list Q) (self : WatchdogPosix.t) (e : Env) :
  calm self e -> calm (WatchdogPosix.set_restarts r self) e.
Proof. intro H. exact H. Qed.

Lemma rearm_calm (self : WatchdogPosix.t) (w : World) :
  log_fails (env w) (log_calls w) = false ->
  exists w',
    WatchdogPosix.rearm self w = Ret tt w'
    /\ env w' = env w
    /\ clock_reads w' = clock_reads w.
Proof.
  intro Hl. rewrite rearm_eq, Hl.
  exists (after_rearm self w). repeat split.
Qed.

(** One reset in a calm environment: it is killed by the activity check when
    the window gets over the cap, and otherwise returns with the flushed
    window. *)
Lemma reset_calm (v : PyVersion) (self : WatchdogPosix.t) (w : World) :
  calm self (env w) ->
  let cap := WatchdogPosix._max_resets self in
  let win := next_window (env w) (clock_reads w) (WatchdogPosix._restarts self) in
  if truthy cap && over_cap cap win then
    exists w',
      WatchdogPosix.check_memory self w = Ret tt (after_memory self w)
      /\ WatchdogPosix.check_activity v self (after_memory self w) = Kill w'
      /\ WatchdogPosix.reset v self w = Kill w'
  else
    exists w',
      WatchdogPosix.reset v self w
      = Ret (if truthy cap then WatchdogPosix.set_restarts win self else self) w'
      /\ env w' = env w
      /\ clock_reads w' = ((if truthy cap then 2 else 0) + clock_reads w)%nat.
Proof.
  intros [Hm [Hl Hc]] cap win.
  pose proof (check_memory_passes self w Hc (Hm _)) as Hmem.
  destruct (after_memory_env self w) as [He [Hr [Hlc Ha]]].
  unfold WatchdogPosix.reset. rewrite (bind_Ret _ Hmem).
  destruct (truthy cap) eqn:Ht; cbn [andb].
  - pose proof (check_activity_on v self (after_memory self w) Ht) as Hact.
    cbn zeta in Hact. rewrite He, Hr in Hact. fold cap win in Hact.
    destruct (over_cap cap win).
    + eexists. split; [exact Hmem |]. split; [exact Hact |].
      apply bind_Kill. exact Hact.
    + rewrite (bind_Ret _ Hact).
      destruct (rearm_calm (WatchdogPosix.set_restarts win self)
                  (read_clock (read_clock (after_memory self w))))
        as [w' [Hre [He' Hr']]].
      { change (env (read_clock (read_clock (after_memory self w))))
          with (env (after_memory self w)).
        rewrite He. apply Hl. }
      rewrite (bind_Ret _ Hre). exists w'. split; [reflexivity |].
      rewrite He', Hr'.
      change (env (read_clock (read_clock (after_memory self w))))
        with (env (after_memory self w)).
      change (clock_reads (read_clock (read_clock (after_memory self w))))
        with (S (S (clock_reads (after_memory self w)))).
      rewrite He, Hr. split; reflexivity.
  - rewrite (bind_Ret _ (check_activity_off v self _ Ht)).
    destruct (rearm_calm self (after_memory self w)) as [w' [Hre [He' Hr']]].
    { rewrite He. apply Hl. }
    rewrite (bind_Ret _ Hre). exists w'. split; [reflexivity |].
    rewrite He', Hr', He, Hr. split; reflexivity.
Qed.

(** A run of [n] resets under a truthy cap returns when the window never gets
    over the cap, and then holds the window computed by [window_after]. *)
Lemma resets_calm (v : PyVersion) (n : nat) :
  forall (self : WatchdogPosix.t) (w : World),
    calm self (env w) ->
    truthy (WatchdogPosix._max_resets self) = true ->
    (forall k, (k < n)%nat ->
       over_cap (WatchdogPosix._max_resets self)
         (window_after (env w) (clock_reads w) (S k)
            (WatchdogPosix._restarts self)) = false) ->
    exists w',
      WatchdogPosix.resets v n self w
      = Ret (WatchdogPosix.set_restarts
               (window_after (env w) (clock_reads w) n
                  (WatchdogPosix._restarts self)) self) w'
      /\ env w' = env w
      /\ clock_reads w' = (2 * n + clock_reads w)%nat.
Proof.
  induction n as [| n IH]; intros self w Hcalm Ht Hcap.
  - exists w. destruct self. repeat split.
  - pose proof (reset_calm v self w Hcalm) as Hstep. cbn zeta in Hstep.
    rewrite Ht in Hstep. cbn [andb] in Hstep.
    pose proof (Hcap 0%nat (Nat.lt_0_succ n)) as H0. cbn in H0.
    rewrite H0 in Hstep. destruct Hstep as [w1 [Hreset [He Hr]]].
    cbn [WatchdogPosix.resets]. rewrite (bind_Ret _ Hreset).
    destruct (IH (WatchdogPosix.set_restarts
                    (next_window (env w) (clock_reads w)
                       (WatchdogPosix._restarts self)) self) w1)
      as [w' [Hrun [He' Hr']]].
    + rewrite He. apply calm_set_restarts. exact Hcalm.
    + exact Ht.
    + intros k Hk. rewrite He, Hr. cbn.
      apply (Hcap (S k)). lia.
    + exists w'. split.
      * rewrite Hrun, He, Hr. reflexivity.
      * rewrite He', Hr', He, Hr. split; [reflexivity | lia].
Qed.

(** ** The flush of the activity window *)

Lemma flush_cons (now t0 : Q) (rest : list Q) :
  WatchdogPosix.flush now (t0 :: rest) =
  if Qltb t0 (now - 60)%Q then WatchdogPosix.flush now rest else t0 :: rest.
Proof. reflexivity. Qed.

Lemma flush_keep (now : Q) (win : list Q) :
  Forall (fun t => now - 60 <= t)%Q win -> WatchdogPosix.flush now win = win.
Proof.
  intro H. destruct win as [| t0 rest]; [reflexivity |].
  rewrite flush_cons. inversion H as [| ? ? Ht _]; subst.
  apply Qltb_ge in Ht. rewrite Ht. reflexivity.
Qed.

Lemma flush_split (now : Q) (win : list Q) :
  exists old,
    win = old ++ WatchdogPosix.flush now win
    /\ Forall (fun t => t < now - 60)%Q old.
Proof.
  induction win as [| t0 rest IH].
  - exists []. split; [reflexivity | constructor].
  - rewrite flush_cons. destruct (Qltb t0 (now - 60)) eqn:Hlt.
    + destruct IH as [old [Heq Hold]]. exists (t0 :: old). split.
      * cbn. rewrite <- Heq. reflexivity.
      * constructor; [apply Qltb_lt; exact Hlt | exact Hold].
    + exists []. split; [reflexivity | constructor].
Qed.

Lemma flush_head (now : Q) (win : list Q) (t0 : Q) (rest : list Q) :
  WatchdogPosix.flush now win = t0 :: rest -> (now - 60 <= t0)%Q.
Proof.
  induction win as [| t1 rest1 IH]; [discriminate |].
  rewrite flush_cons. destruct (Qltb t1 (now - 60)) eqn:Hlt.
  - exact IH.
  - intro H. injection H as <- _. apply Qltb_ge. exact Hlt.
Qed.

Lemma flush_idempotent (now : Q) (win : list Q) :
  WatchdogPosix.flush now (WatchdogPosix.flush now win)
  = WatchdogPosix.flush now win.
Proof.
  destruct (WatchdogPosix.flush now win) as [| t0 rest] eqn:H; [reflexivity |].
  rewrite flush_cons. apply flush_head in H. apply Qltb_ge in H.
  rewrite H. reflexivity.
Qed.

Lemma flush_length (now : Q) (win : list Q) :
  (List.length (WatchdogPosix.flush now win) <= List.length win)%nat.
Proof.
  destruct (flush_split now win) as [old [Heq _]].
  rewrite Heq at 2. rewrite length_app. lia.
Qed.

Lemma sorted_app_inv (l1 l2 : list Q) :
  StronglySorted Qle (l1 ++ l2) -> StronglySorted Qle l2.
Proof.
  induction l1 as [| x l1 IH]; [auto |].
  cbn. intro H. inversion H; subst. auto.
Qed.

Lemma sorted_snoc (l : list Q) (x : Q) :
  StronglySorted Qle l -> Forall (fun t => t <= x)%Q l ->
  StronglySorted Qle (l ++ [x]).
Proof.
  induction l as [| y l IH]; cbn; intros Hs Hx.
  - repeat constructor.
  - inversion Hs as [| ? ? Hs' Hy]; subst.
    inversion Hx as [| ? ? Hyx Hx']; subst.
    constructor.
    + apply IH; assumption.
    + apply Forall_app. split; [exact Hy |]. constructor; [exact Hyx | constructor].
Qed.

Lemma flush_sorted (now : Q) (win : list Q) :
  StronglySorted Qle win ->
  StronglySorted Qle (WatchdogPosix.flush now win)
  /\ Forall (fun t => now - 60 <= t)%Q (WatchdogPosix.flush now win).
Proof.
  intro Hs.
  assert (Hs' : StronglySorted Qle (WatchdogPosix.flush now win)).
  { destruct (flush_split now win) as [old [Heq _]].
    rewrite Heq in Hs. apply sorted_app_inv in Hs. exact Hs. }
  split; [exact Hs' |].
  destruct (WatchdogPosix.flush now win) as [| t0 rest] eqn:H;
    [constructor |].
  apply flush_head in H. inversion Hs' as [| ? ? _ Hall]; subst.
  constructor; [exact H |].
  eapply Forall_impl; [| exact Hall]. cbn. intros t Ht. lra.
Qed.

(** ** Runs of the activity check *)

Lemma window_after_last (e : Env) (n : nat) :
  forall (r : nat) (win : list Q),
    window_after e r (S n) win
    = next_window e (2 * n + r) (window_after e r n win).
Proof.
  induction n as [| n IH]; intros r win.
  - reflexivity.
  - change (window_after e r (S (S n)) win)
      with (window_after e (S (S r)) (S n) (next_window e r win)).
    rewrite IH. cbn [window_after].
    replace (2 * n + S (S r))%nat with (2 * S n + r)%nat by lia.
    reflexivity.
Qed.

Lemma resets_last (v : PyVersion) (n : nat) :
  forall (self : WatchdogPosix.t) (w : World),
    WatchdogPosix.resets v (S n) self w
    = bind (WatchdogPosix.resets v n self) (WatchdogPosix.reset v) w.
Proof.
  induction n as [| n IH]; intros self w.
  - cbn. unfold bind, ret.
    destruct (WatchdogPosix.reset v self w); reflexivity.
  - change (WatchdogPosix.resets v (S (S n)) self w)
      with (bind (WatchdogPosix.reset v self)
              (WatchdogPosix.resets v (S n)) w).
    change (WatchdogPosix.resets v (S n) self)
      with (bind (WatchdogPosix.reset v self) (WatchdogPosix.resets v n)).
    unfold bind.
    destruct (WatchdogPosix.reset v self w) as [self1 w1 | |];
      try reflexivity.
    rewrite IH. reflexivity.
Qed.

(** With every reading of the run within 60 seconds of every other, nothing
    is flushed: the window is the list of the appended readings. *)
Lemma window_after_within (e : Env) (n : nat) :
  forall (r : nat) (win : list Q),
    (forall t j, In t win -> (j < n)%nat ->
                 (clock e (S (2 * j + r)) - 60 <= t)%Q) ->
    (forall i j, (i < n)%nat -> (j < n)%nat ->
                 (clock e (S (2 * j + r)) - 60 <= clock e (2 * i + r))%Q) ->
    window_after e r n win
    = win ++ map (fun i => clock e (2 * i + r)%nat) (seq 0 n).
Proof.
  induction n as [| n IH]; intros r win Hwin Hclk.
  - cbn. rewrite app_nil_r. reflexivity.
  - cbn [window_after]. unfold next_window. rewrite flush_keep.
    + rewrite IH.
      * rewrite <- app_assoc. f_equal. cbn [app seq map]. f_equal.
        rewrite <- seq_shift, map_map. apply map_ext. intro i.
        f_equal. lia.
      * intros t j Hin Hj.
        replace (S (2 * j + S (S r))) with (S (2 * S j + r)) by lia.
        apply in_app_or in Hin. destruct Hin as [Hin | [<- | []]].
        -- apply Hwin; [exact Hin | lia].
        -- apply (Hclk 0%nat (S j)); lia.
      * intros i j Hi Hj.
        replace (S (2 * j + S (S r))) with (S (2 * S j + r)) by lia.
        replace (2 * i + S (S r))%nat with (2 * S i + r)%nat by lia.
        apply Hclk; lia.
    + apply Forall_app. split.
      * apply Forall_forall. intros t Hin.
        apply (Hwin t 0%nat Hin). lia.
      * constructor; [| constructor].
        apply (Hclk 0%nat 0%nat); lia.
Qed.

(** ** Resets at a steady rate *)

Section SteadyRate.

Variable e : Env.
Variable r : nat.          (* index of the first clock reading of the run *)
Variables t0 delta : Q.    (* time of the first reset, and the period *)

Hypothesis delta_pos : (0 < delta)%Q.

(** The reset number [i] appends the reading [t0 + i * delta] ... *)
Hypothesis appended :
  forall i, (clock e (2 * i + r) == t0 + inject_Z (Z.of_nat i) * delta)%Q.

(** ... and its flush reads the clock no earlier. *)
Hypothesis flushed_later :
  forall i, (clock e (2 * i + r) <= clock e (S (2 * i + r)))%Q.

Local Abbreviation stamp := (stamp e r).
Local Abbreviation stamps_window := (stamps_window e r).

Lemma flush_stamps (now : Q) (m : nat) :
  forall lo,
  exists lo' m',
    WatchdogPosix.flush now (map stamp (seq lo m)) = map stamp (seq lo' m')
    /\ (lo' + m' = lo + m)%nat
    /\ ((0 < m')%nat -> (now - 60 <= stamp lo')%Q).
Proof.
  induction m as [| m IH]; intro lo.
  - exists lo, 0%nat. repeat split. intro H. inversion H.
  - cbn [seq map]. rewrite flush_cons.
    destruct (Qltb (stamp lo) (now - 60)) eqn:Hlt.
    + destruct (IH (S lo)) as [lo' [m' [Heq [Hsum Hhd]]]].
      exists lo', m'. split; [exact Heq |]. split; [lia | exact Hhd].
    + exists lo, (S m). split; [reflexivity |]. split; [reflexivity |].
      intros _. apply Qltb_ge. exact Hlt.
Qed.

Lemma stamps_window_step (k : nat) (win : list Q) :
  stamps_window k win ->
  stamps_window (S k) (next_window e (2 * k + r) win).
Proof.
  intros [lo [m [Hwin [Hsum _]]]]. unfold next_window. subst win.
  assert (Hsnoc : map stamp (seq lo m) ++ [clock e (2 * k + r)]
                  = map stamp (seq lo (S m))).
  { rewrite seq_S, map_app. cbn. unfold stamp. rewrite Hsum. reflexivity. }
  rewrite Hsnoc.
  destruct (flush_stamps (clock e (S (2 * k + r))) (S m) lo)
    as [lo' [m' [Heq [Hsum' Hhd]]]].
  exists lo', m'. split; [exact Heq |]. split; [lia |].
  intro Hpos. specialize (Hhd Hpos).
  replace (S k - 1)%nat with k by lia.
  pose proof (flushed_later k) as Hk. unfold stamp at 1. lra.
Qed.

Lemma stamps_window_after (n : nat) :
  forall k win,
    stamps_window k win ->
    stamps_window (k + n) (window_after e (2 * k + r) n win).
Proof.
  induction n as [| n IH]; intros k win H.
  - rewrite Nat.add_0_r. exact H.
  - cbn [window_after].
    replace (S (S (2 * k + r))) with (2 * S k + r)%nat by lia.
    replace (k + S n)%nat with (S k + n)%nat by lia.
    apply IH. apply stamps_window_step. exact H.
Qed.

(** The stamps kept in the window span at most 60 seconds. *)
Lemma steady_window_span (n : nat) :
  let len := List.length (window_after e r n []) in
  ((inject_Z (Z.of_nat len) - 1) * delta <= 60)%Q.
Proof.
  cbn zeta.
  destruct (stamps_window_after n 0%nat []) as [lo [m [Hwin [Hsum Hhd]]]].
  { exists 0%nat, 0%nat. repeat split. intro H. inversion H. }
  replace (2 * 0 + r)%nat with r in Hwin by lia.
  rewrite Hwin, length_map, length_seq.
  destruct m as [| m].
  - change (inject_Z (Z.of_nat 0)) with 0%Q. lra.
  - specialize (Hhd (Nat.lt_0_succ m)). unfold stamp in Hhd.
    rewrite !appended in Hhd.
    replace (0 + n - 1)%nat with (lo + m)%nat in Hhd by lia.
    rewrite Nat2Z.inj_add, inject_Z_plus in Hhd.
    rewrite Nat2Z.inj_succ. unfold Z.succ. rewrite inject_Z_plus.
    change (inject_Z 1) with 1%Q. lra.
Qed.

(** When [cap] resets take more than 60 seconds, the window never holds more
    than [cap] stamps. *)
Lemma steady_window_under_cap (cap : Z) (n : nat) :
  (60 < inject_Z cap * delta)%Q ->
  over_cap (Some cap) (window_after e r n []) = false.
Proof.
  intro Hcap. pose proof (steady_window_span n) as Hspan. cbn zeta in Hspan.
  unfold over_cap. apply Z.ltb_ge.
  set (len := List.length (window_after e r n [])) in *.
  assert (Hlt : (inject_Z (Z.of_nat len) - 1 < inject_Z cap)%Q).
  { apply (Qmult_lt_r _ _ delta delta_pos). lra. }
  assert (Hz : (inject_Z (Z.of_nat len - 1) < inject_Z cap)%Q).
  { unfold Z.sub. rewrite inject_Z_plus, inject_Z_opp.
    change (inject_Z 1) with 1%Q. lra. }
  rewrite <- Zlt_Qlt in Hz. lia.
Qed.

(** At a steady rate the window never holds more than one stamp per period
    that fits in the timeframe, plus one. *)
Lemma steady_window_bound (n : nat) :
  (Z.of_nat (List.length (window_after e r n [])) <= Qfloor (60 / delta) + 1)%Z.
Proof.
  pose proof (steady_window_span n) as Hspan. cbn zeta in Hspan.
  set (len := List.length (window_after e r n [])) in *.
  assert (Hle : (inject_Z (Z.of_nat len - 1) <= 60 / delta)%Q).
  { apply Qle_shift_div_l; [exact delta_pos |].
    unfold Z.sub. rewrite inject_Z_plus, inject_Z_opp.
    change (inject_Z 1) with 1%Q. lra. }
  apply Qfloor_resp_le in Hle. rewrite Qfloor_Z in Hle. lia.
Qed.

End SteadyRate.

(** ** Runs of resets in any environment *)

Lemma window_after_sorted (e : Env) :
  (forall i, (clock e i <= clock e (S i))%Q) ->
  forall (n r : nat) (win : list Q),
    StronglySorted Qle win ->
    Forall (fun t => t <= clock e r)%Q win ->
    StronglySorted Qle (window_after e r n win)
    /\ Forall (fun t => t <= clock e (2 * n + r))%Q (window_after e r n win).
Proof.
  intros Hmono n. induction n as [| n IH]; intros r win Hs Hle.
  - split; assumption.
  - cbn [window_after].
    replace (2 * S n + r)%nat with (2 * n + S (S r))%nat by lia.
    apply IH.
    + unfold next_window. apply flush_sorted. apply sorted_snoc; assumption.
    + unfold next_window.
      destruct (flush_split (clock e (S r)) (win ++ [clock e r]))
        as [old [Heq _]].
      assert (Hall : Forall (fun t => t <= clock e (S (S r)))%Q
                       (win ++ [clock e r])).
      { pose proof (Hmono r) as H1. pose proof (Hmono (S r)) as H2.
        apply Forall_app. split.
        - eapply Forall_impl; [| exact Hle]. cbn. intros t Ht. lra.
        - constructor; [lra | constructor]. }
      rewrite Heq in Hall. apply Forall_app in Hall. apply Hall.
Qed.

Lemma check_memory_returns (self : WatchdogPosix.t) (w w1 : World) (u : unit) :
  WatchdogPosix.check_memory self w = Ret u w1 -> w1 = after_memory self w.
Proof.
  unfold WatchdogPosix.check_memory, after_memory.
  destruct (WatchdogPosix.memory_limit_enabled self).
  - unfold bind, ps_rss_kb. cbn.
    destruct (WatchdogPosix._max_mem_kb self) as [kb |]; [| discriminate].
    destruct (Qltb _ _).
    + unfold WatchdogPosix.destruct. rewrite self_destruct_kills. discriminate.
    + unfold ret. intro H. injection H as _ <-. reflexivity.
  - unfold ret. intro H. injection H as _ <-. reflexivity.
Qed.

Lemma rearm_returns (self : WatchdogPosix.t) (w w1 : World) (u : unit) :
  WatchdogPosix.rearm self w = Ret u w1 ->
  env w1 = env w /\ clock_reads w1 = clock_reads w.
Proof.
  rewrite rearm_eq.
  destruct (log_fails (env w) (log_calls w)); [discriminate |].
  intro H. injection H as _ <-. split; reflexivity.
Qed.

(** A reset that returns has updated the window as [next_window] says, or not
    at all without a truthy cap. *)
Lemma reset_returns (v : PyVersion) (self self1 : WatchdogPosix.t)
  (w w1 : World) :
  WatchdogPosix.reset v self w = Ret self1 w1 ->
  env w1 = env w
  /\ if truthy (WatchdogPosix._max_resets self)
     then self1 = WatchdogPosix.set_restarts
                    (next_window (env w) (clock_reads w)
                       (WatchdogPosix._restarts self)) self
          /\ clock_reads w1 = S (S (clock_reads w))
     else self1 = self /\ clock_reads w1 = clock_reads w.
Proof.
  unfold WatchdogPosix.reset. unfold bind at 1.
  destruct (WatchdogPosix.check_memory self w) as [u wm | |] eqn:Hmem;
    try discriminate.
  apply check_memory_returns in Hmem. subst wm.
  destruct (after_memory_env self w) as [He [Hr _]].
  destruct (truthy (WatchdogPosix._max_resets self)) eqn:Ht.
  - pose proof (check_activity_on v self (after_memory self w) Ht) as Hact.
    cbn zeta in Hact. rewrite He, Hr in Hact.
    destruct (over_cap _ _).
    + rewrite (bind_Kill _ Hact). discriminate.
    + rewrite (bind_Ret _ Hact). unfold bind, ret.
      destruct (WatchdogPosix.rearm _ _) as [u2 w2 | |] eqn:Hre;
        try discriminate.
      intro H. injection H as <- <-.
      apply rearm_returns in Hre. destruct Hre as [He2 Hr2].
      rewrite He2, Hr2. cbn. rewrite He, Hr. repeat split.
  - rewrite (bind_Ret _ (check_activity_off v self _ Ht)). unfold bind, ret.
    destruct (WatchdogPosix.rearm _ _) as [u2 w2 | |] eqn:Hre;
      try discriminate.
    intro H. injection H as <- <-.
    apply rearm_returns in Hre. destruct Hre as [He2 Hr2].
    rewrite He2, Hr2, He, Hr. repeat split.
Qed.

Lemma resets_returns (v : PyVersion) (n : nat) :
  forall (self self' : WatchdogPosix.t) (w w' : World),
    WatchdogPosix.resets v n self w = Ret self' w' ->
    env w' = env w
    /\ if truthy (WatchdogPosix._max_resets self)
       then WatchdogPosix._restarts self'
            = window_after (env w) (clock_reads w) n
                (WatchdogPosix._restarts self)
       else self' = self /\ clock_reads w' = clock_reads w.
Proof.
  induction n as [| n IH]; intros self self' w w'.
  - cbn. unfold ret. intro H. injection H as <- <-.
    split; [reflexivity |].
    destruct (truthy _); [reflexivity | split; reflexivity].
  - cbn [WatchdogPosix.resets]. unfold bind.
    destruct (WatchdogPosix.reset v self w) as [self1 w1 | |] eqn:Hreset;
      try discriminate.
    intro Hrun. apply reset_returns in Hreset. destruct Hreset as [He Hstep].
    apply IH in Hrun. destruct Hrun as [He' Hrun].
    split; [congruence |].
    destruct (truthy (WatchdogPosix._max_resets self)) eqn:Ht.
    + destruct Hstep as [-> Hr]. cbn in Hrun. rewrite Ht in Hrun.
      rewrite Hrun, He, Hr. reflexivity.
    + destruct Hstep as [-> Hr]. rewrite Ht in Hrun.
      destruct Hrun as [-> Hr']. split; congruence.
Qed.

(** ** Computations that never read the clock *)

Lemma no_clock_ret {A : Type} (a : A) : no_clock (ret a).
Proof. intro w. reflexivity. Qed.

Lemma no_clock_bind {A B : Type} (m : M A) (k : A -> M B) :
  no_clock m -> (forall a, no_clock (k a)) -> no_clock (bind m k).
Proof.
  intros Hm Hk w. unfold bind. specialize (Hm w).
  destruct (m w) as [a w1 | ex w1 | w1]; cbn in *.
  - rewrite Hk. exact Hm.
  - exact Hm.
  - exact Hm.
Qed.

Lemma no_clock_check_memory (self : WatchdogPosix.t) :
  no_clock (WatchdogPosix.check_memory self).
Proof.
  intro w. unfold WatchdogPosix.check_memory.
  destruct (WatchdogPosix.memory_limit_enabled self); [| reflexivity].
  unfold bind, ps_rss_kb. cbn.
  destruct (WatchdogPosix._max_mem_kb self) as [kb |]; [| reflexivity].
  destruct (Qltb _ _); [| reflexivity].
  unfold WatchdogPosix.destruct. rewrite self_destruct_kills. reflexivity.
Qed.

Lemma no_clock_rearm (self : WatchdogPosix.t) :
  no_clock (WatchdogPosix.rearm self).
Proof.
  intro w. rewrite rearm_eq.
  destruct (log_fails (env w) (log_calls w)); reflexivity.
Qed.

Lemma no_clock_reset_off (v : PyVersion) (self : WatchdogPosix.t) :
  truthy (WatchdogPosix._max_resets self) = false ->
  no_clock (WatchdogPosix.reset v self).
Proof.
  intro Ht. unfold WatchdogPosix.reset.
  apply no_clock_bind; [apply no_clock_check_memory |]. intros _.
  apply no_clock_bind.
  - intro w. rewrite (check_activity_off v self w Ht). reflexivity.
  - intro self'. apply no_clock_bind; [apply no_clock_rearm |].
    intros _. apply no_clock_ret.
Qed.

Lemma no_clock_resets_off (v : PyVersion) (n : nat) :
  forall self,
    truthy (WatchdogPosix._max_resets self) = false ->
    no_clock (WatchdogPosix.resets v n self).
Proof.
  induction n as [| n IH]; intros self Ht.
  - apply no_clock_ret.
  - cbn [WatchdogPosix.resets]. intro w. unfold bind.
    pose proof (no_clock_reset_off v self Ht w) as Hstep.
    destruct (WatchdogPosix.reset v self w) as [self1 w1 | ex w1 | w1] eqn:Hr;
      cbn in Hstep; try exact Hstep.
    apply reset_returns in Hr. rewrite Ht in Hr.
    destruct Hr as [_ [-> _]]. rewrite (IH self Ht). exact Hstep.
Qed.

Lemma resets_calm_off (v : PyVersion) (n : nat) :
  forall (self : WatchdogPosix.t) (w : World),
    calm self (env w) ->
    truthy (WatchdogPosix._max_resets self) = false ->
    exists w',
      WatchdogPosix.resets v n self w = Ret self w'
      /\ env w' = env w
      /\ clock_reads w' = clock_reads w.
Proof.
  induction n as [| n IH]; intros self w Hcalm Ht.
  - exists w. repeat split.
  - pose proof (reset_calm v self w Hcalm) as Hstep. cbn zeta in Hstep.
    rewrite Ht in Hstep. cbn [andb] in Hstep.
    destruct Hstep as [w1 [Hreset [He Hr]]].
    cbn [WatchdogPosix.resets]. rewrite (bind_Ret _ Hreset).
    destruct (IH self w1) as [w' [Hrun [He' Hr']]].
    + rewrite He. exact Hcalm.
    + exact Ht.
    + exists w'. split; [exact Hrun |]. split; [congruence |].
      rewrite Hr', Hr. reflexivity.
Qed.

(** C10.  With [max_resets = 0] the activity branch of [reset] is never taken:
    lines 97-99 store the cap as given, the activity block of every call
    returns at once without touching the window; no run of resets, however
    long and whatever the clock shows, reads the clock, and a run that
    returns hands back the very same instance; and in a calm environment
    every run returns, so that no number of resets is ever killed. *)
Theorem zero_cap_disables_activity_monitoring
  (v : PyVersion) (self : WatchdogPosix.t) (n : nat) (wc : World) :
  WatchdogPosix._max_resets self = Some 0%Z ->
  calm self (env wc) ->
  (forall d mm w0,
      exists self0 w1,
        WatchdogPosix.init_monitoring d mm (Some 0%Z) w0 = Ret self0 w1
        /\ WatchdogPosix._max_resets self0 = Some 0%Z
        /\ WatchdogPosix._restarts self0 = [])
  /\ (forall w, WatchdogPosix.check_activity v self w = Ret self w)
  /\ (forall w, clock_reads (final (WatchdogPosix.resets v n self w))
                = clock_reads w)
  /\ (forall w self' w',
         WatchdogPosix.resets v n self w = Ret self' w' -> self' = self)
  /\ exists w', WatchdogPosix.resets v n self wc = Ret self w'.
Proof.
  intros Hcap Hcalm.
  assert (Ht : truthy (WatchdogPosix._max_resets self) = false).
  { rewrite Hcap. reflexivity. }
  split; [| split; [| split; [| split]]].
  - intros d mm w0. unfold WatchdogPosix.init_monitoring.
    destruct mm as [mb |]; run; eexists; eexists; repeat split.
  - intro w. apply check_activity_off. exact Ht.
  - apply no_clock_resets_off. exact Ht.
  - intros w self' w' Hrun. apply resets_returns in Hrun.
    rewrite Ht in Hrun. apply Hrun.
  - destruct (resets_calm_off v n self wc Hcalm Ht) as [w' [Hrun _]].
    exists w'. exact Hrun.
Qed.

(** ** The frenetic-activity check *)

Lemma window_within_span (e : Env) (r k n : nat) :
  (k <= n)%nat ->
  (forall i j, (i < 2 * n)%nat -> (j < 2 * n)%nat ->
               (clock e (j + r) - clock e (i + r) <= 60)%Q) ->
  window_after e r k []
  = map (fun i => clock e (2 * i + r)%nat) (seq 0 k).
Proof.
  intros Hk Hspan.
  rewrite window_after_within; [reflexivity | |].
  - intros t j [].
  - intros i j Hi Hj.
    pose proof (Hspan (2 * i)%nat (S (2 * j))) as H.
    replace (S (2 * j) + r)%nat with (S (2 * j + r)) in H by lia.
    assert (H' : (clock e (S (2 * j + r)) - clock e (2 * i + r) <= 60)%Q)
      by (apply H; lia).
    lra.
Qed.

(** C2.  With a positive cap [cap] and a fresh window, in an environment where
    neither the memory check nor the logging interferes: when all the clock
    readings of [cap + 1] resets lie within a span of 60 seconds, the first
    [cap] resets return and the reset number [cap + 1] is killed by its
    activity check; and at a steady rate at which [cap] resets take more than
    60 seconds, no run of resets, of whatever length, is ever killed. *)
Theorem frenetic_activity_check
  (v : PyVersion) (self : WatchdogPosix.t) (cap : Z) (w wS : World)
  (t0 delta : Q) :
  (0 < cap)%Z ->
  WatchdogPosix._max_resets self = Some cap ->
  WatchdogPosix._restarts self = [] ->
  calm self (env w) ->
  (forall i j,
      (i < 2 * S (Z.to_nat cap))%nat -> (j < 2 * S (Z.to_nat cap))%nat ->
      (clock (env w) (j + clock_reads w)
       - clock (env w) (i + clock_reads w) <= 60)%Q) ->
  calm self (env wS) ->
  (60 < inject_Z cap * delta)%Q ->
  (forall i, (clock (env wS) (2 * i + clock_reads wS)
              == t0 + inject_Z (Z.of_nat i) * delta)%Q) ->
  (forall i, (clock (env wS) (2 * i + clock_reads wS)
              <= clock (env wS) (S (2 * i + clock_reads wS)))%Q) ->
  (exists selfN wN w',
      WatchdogPosix.resets v (Z.to_nat cap) self w = Ret selfN wN
      /\ WatchdogPosix.check_memory selfN wN = Ret tt (after_memory selfN wN)
      /\ WatchdogPosix.check_activity v selfN (after_memory selfN wN) = Kill w'
      /\ WatchdogPosix.reset v selfN wN = Kill w'
      /\ WatchdogPosix.resets v (S (Z.to_nat cap)) self w = Kill w')
  /\ (forall m, exists self' w',
         WatchdogPosix.resets v m self wS = Ret self' w').
Proof.
  intros Hpos Hcap Hfresh Hcalm Hspan HcalmS Hrate Happ Hlater.
  assert (Ht : truthy (WatchdogPosix._max_resets self) = true).
  { rewrite Hcap. cbn. apply negb_true_iff, Z.eqb_neq. lia. }
  set (n := Z.to_nat cap) in *.
  assert (Hlen : forall k, (k <= S n)%nat ->
            List.length (window_after (env w) (clock_reads w) k []) = k).
  { intros k Hk.
    rewrite (window_within_span (env w) (clock_reads w) k (S n) Hk Hspan).
    rewrite length_map, length_seq. reflexivity. }
  split.
  - destruct (resets_calm v n self w Hcalm Ht) as [wN [Hrun [He Hr]]].
    { intros k Hk. rewrite Hcap, Hfresh. unfold over_cap.
      rewrite Hlen by lia. apply Z.ltb_ge. lia. }
    rewrite Hfresh in Hrun.
    set (selfN := WatchdogPosix.set_restarts
                    (window_after (env w) (clock_reads w) n []) self) in *.
    pose proof (reset_calm v selfN wN) as Hstep. cbn zeta in Hstep.
    rewrite He, Hr in Hstep. specialize (Hstep Hcalm).
    change (WatchdogPosix._max_resets selfN)
      with (WatchdogPosix._max_resets self) in Hstep.
    change (WatchdogPosix._restarts selfN)
      with (window_after (env w) (clock_reads w) n []) in Hstep.
    rewrite <- window_after_last, Ht, Hcap in Hstep.
    unfold over_cap in Hstep. rewrite Hlen in Hstep by lia.
    replace (cap <? Z.of_nat (S n))%Z with true in Hstep
      by (symmetry; apply Z.ltb_lt; lia).
    cbn [andb] in Hstep. destruct Hstep as [w' [Hmem [Hact Hkill]]].
    exists selfN, wN, w'. repeat split; try assumption.
    rewrite resets_last. rewrite (bind_Ret _ Hrun). exact Hkill.
  - assert (Hdelta : (0 < delta)%Q).
    { destruct (Qlt_le_dec 0 delta) as [Hd | Hd]; [exact Hd |].
      exfalso.
      assert (H0 : (inject_Z 0 <= inject_Z cap)%Q)
        by (rewrite <- Zle_Qle; lia).
      change (inject_Z 0) with 0%Q in H0.
      assert (Hneg : (inject_Z cap * delta <= 0)%Q) by nra.
      lra. }
    intro m.
    destruct (resets_calm v m self wS HcalmS Ht) as [w' [Hrun _]].
    { intros k Hk. rewrite Hcap, Hfresh.
      apply (steady_window_under_cap (env wS) (clock_reads wS) t0 delta
               Hdelta Happ Hlater cap (S k) Hrate). }
    eexists. exists w'. exact Hrun.
Qed.

(** ** The invariant of the activity window *)

(** C6.  Right after a frenetic check made at time [now] on an ordered
    window, every entry left is at least [now - 60], the entries removed are
    exactly a prefix of entries strictly older than that, the window is still
    ordered oldest-first, and a repeated check at the same time leaves it as
    it is.  In runs of resets that start from an empty window, under a clock
    that does not go backwards, the window is ordered after every reset, and
    when the resets are appended every [delta] seconds its size never exceeds
    [floor (60 / delta) + 1]. *)
Theorem activity_window_invariant
  (v : PyVersion) (self : WatchdogPosix.t) (cap : Z) (w : World)
  (t0 delta : Q) (n : nat) :
  WatchdogPosix._max_resets self = Some cap ->
  StronglySorted Qle (WatchdogPosix._restarts self) ->
  (forall i, (clock (env w) i <= clock (env w) (S i))%Q) ->
  (0 < delta)%Q ->
  (forall i, (clock (env w) (2 * i + clock_reads w)
              == t0 + inject_Z (Z.of_nat i) * delta)%Q) ->
  let now := clock (env w) (clock_reads w) in
  let win' := WatchdogPosix.flush now (WatchdogPosix._restarts self) in
  WatchdogPosix._is_frenetic v self w
  = Ret (over_cap (Some cap) win', WatchdogPosix.set_restarts win' self)
        (read_clock w)
  /\ Forall (fun t => now - 60 <= t)%Q win'
  /\ (exists old,
         WatchdogPosix._restarts self = old ++ win'
         /\ Forall (fun t => t < now - 60)%Q old)
  /\ StronglySorted Qle win'
  /\ WatchdogPosix.flush now win' = win'
  /\ forall self' w',
       WatchdogPosix.resets v n (WatchdogPosix.set_restarts [] self) w
       = Ret self' w' ->
       StronglySorted Qle (WatchdogPosix._restarts self')
       /\ (Z.of_nat (List.length (WatchdogPosix._restarts self'))
           <= Qfloor (60 / delta) + 1)%Z.
Proof.
  intros Hcap Hsorted Hmono Hdelta Happ now win'.
  split; [apply is_frenetic_eq; exact Hcap |].
  destruct (flush_sorted now (WatchdogPosix._restarts self) Hsorted)
    as [Hs' Hall].
  split; [exact Hall |]. split; [apply flush_split |].
  split; [exact Hs' |]. split; [apply flush_idempotent |].
  intros self' w' Hrun. apply resets_returns in Hrun.
  destruct Hrun as [_ Hrun]. cbn in Hrun. rewrite Hcap in Hrun.
  destruct (truthy (Some cap)).
  - rewrite Hrun. split.
    + apply (window_after_sorted (env w) Hmono); constructor.
    + apply (steady_window_bound (env w) (clock_reads w) t0 delta Hdelta Happ).
      intro i. apply Hmono.
  - destruct Hrun as [-> _]. split; [constructor |].
    change (Z.of_nat (List.length (WatchdogPosix._restarts
                                    (WatchdogPosix.set_restarts [] self))))
      with 0%Z.
    assert (H0 : (0 <= Qfloor (60 / delta))%Z).
    { change 0%Z with (Qfloor 0). apply Qfloor_resp_le.
      apply Qle_shift_div_l; [exact Hdelta | lra]. }
    lia.
Qed.

(** ** Concrete runs *)

Lemma ticking_clock_mono (step : Z) (i : nat) :
  (0 <= step)%Z ->
  (clock (ticking_env step) i <= clock (ticking_env step) (S i))%Q.
Proof.
  intro H. cbn. rewrite <- Zle_Qle. nia.
Qed.

Lemma ticking_clock_steady (step : Z) (i : nat) :
  (clock (ticking_env step) (2 * i + 0)
   == 0 + inject_Z (Z.of_nat i) * inject_Z (2 * step))%Q.
Proof.
  cbn [clock ticking_env]. rewrite <- inject_Z_mult, Qplus_0_l.
  apply inject_Z_injective. lia.
Qed.

Lemma calm_without_ceiling (self : WatchdogPosix.t) (step : Z) :
  WatchdogPosix.memory_limit_enabled self = false ->
  calm self (ticking_env step).
Proof.
  intro H. unfold calm, consistent, mem_trips. rewrite H.
  repeat split. discriminate.
Qed.

Lemma frenetic_activity_check_witness :
  killed (WatchdogPosix.resets Py2 3 capped_3 (boot (ticking_env 1))) = false
  /\ killed (WatchdogPosix.resets Py2 4 capped_3 (boot (ticking_env 1))) = true
  /\ killed (WatchdogPosix.resets Py2 40 capped_3 (boot (ticking_env 15))) = false.
Proof.
  destruct (frenetic_activity_check Py2 capped_3 3
              (boot (ticking_env 1)) (boot (ticking_env 15)) 0 30)
    as [[selfN [wN [w' [H3 [_ [_ [_ H4]]]]]]] Hsteady].
  - reflexivity.
  - reflexivity.
  - reflexivity.
  - apply calm_without_ceiling. reflexivity.
  - intros i j Hi Hj. cbn in Hi, Hj. cbn [clock ticking_env env boot clock_reads].
    unfold Qminus. rewrite <- inject_Z_opp, <- inject_Z_plus.
    change 60%Q with (inject_Z 60). rewrite <- Zle_Qle. lia.
  - apply calm_without_ceiling. reflexivity.
  - reflexivity.
  - intro i. apply (ticking_clock_steady 15).
  - intro i. apply ticking_clock_mono. lia.
  - destruct (Hsteady 40%nat) as [self' [w40 H40]].
    change (Z.to_nat 3) with 3%nat in H3, H4.
    rewrite H3, H4, H40. repeat split.
Defined.

Lemma activity_window_invariant_witness :
  exists self' w',
    WatchdogPosix.resets Py2 40 (WatchdogPosix.set_restarts [] capped_3)
      (boot (ticking_env 15)) = Ret self' w'
    /\ (Z.of_nat (List.length (WatchdogPosix._restarts self')) <= 3)%Z.
Proof.
  destruct (WatchdogPosix.resets Py2 40 (WatchdogPosix.set_restarts [] capped_3)
              (boot (ticking_env 15))) as [self' w' | ex w' | w'] eqn:Hrun.
  - exists self', w'. split; [reflexivity |].
    destruct (activity_window_invariant Py2 capped_3 3 (boot (ticking_env 15))
                0 30 40) as [_ [_ [_ [_ [_ H]]]]].
    + reflexivity.
    + constructor.
    + intro i. apply ticking_clock_mono. lia.
    + reflexivity.
    + intro i. apply (ticking_clock_steady 15).
    + apply (H self' w' Hrun).
  - vm_compute in Hrun. discriminate Hrun.
  - vm_compute in Hrun. discriminate Hrun.
Defined.

Lemma zero_cap_disables_activity_monitoring_witness :
  exists w',
    WatchdogPosix.resets Py2 40 capped_0 (boot (ticking_env 1))
    = Ret capped_0 w'.
Proof.
  destruct (zero_cap_disables_activity_monitoring Py2 capped_0 40
              (boot (ticking_env 1))) as [_ [_ [_ [_ H]]]].
  - reflexivity.
  - apply calm_without_ceiling. reflexivity.
  - exact H.
Defined.

Lemma reset_order_of_operations_witness :
  exists w',
    WatchdogPosix.reset Py2 guarded_100_3 (boot (ticking_env 1))
    = Ret (WatchdogPosix.set_restarts [0%Q] guarded_100_3) w'
    /\ trace w' = [EvPs 50000; EvTime 0; EvTime 1;
                   EvLog DEBUG (ResettingFor 5) false; EvAlarm 5]
    /\ alarm w' = Some 5%Z.
Proof.
  assert (Hc : consistent guarded_100_3).
  { intros _. discriminate. }
  assert (Hd : (0 <= 5 < 2 ^ 31)%Z).
  { split; [discriminate | reflexivity]. }
  pose proof (reset_order_of_operations Py2 guarded_100_3
                (boot (ticking_env 1)) Hc) as H.
  vm_compute in H. destruct (H Hd) as [w' [H1 [H2 H3]]].
  exists w'. split; [exact H1 |]. split; [exact H2 | exact H3].
Defined.

(** ** The polling engine *)

Lemma added_app {A : Type} (m : M A) (w : World) (evs : list Event) :
  trace (final (m w)) = trace w ++ evs -> added m w = evs.
Proof.
  intro H. unfold added. rewrite H.
  rewrite skipn_app, skipn_all, Nat.sub_diag. reflexivity.
Qed.

Lemma windows_reset_eq (self : WatchdogWindows.t) (w : World) :
  log_fails (env w) (log_calls w) = false ->
  let d := WatchdogWindows._duration self in
  let now := clock (env w) (clock_reads w) in
  exists w',
    WatchdogWindows.reset self w
    = Ret {| WatchdogWindows._duration := d;
             WatchdogWindows.expire_at := Some (now + inject_Z d)%Q |} w'
    /\ env w' = env w
    /\ clock_reads w' = S (clock_reads w)
    /\ trace w' = trace w ++ [EvLog DEBUG (ResettingFor d) false; EvAcquire;
                              EvTime now; EvWrite "expire_at"; EvRelease].
Proof.
  intros Hl d now. unfold WatchdogWindows.reset, WatchdogWindows.with_tlock.
  run. rewrite Hl. cbn. eexists. split; [reflexivity |].
  cbn. rewrite <- !app_assoc. repeat split.
Qed.

Lemma windows_init_eq (duration : Q) (w : World) :
  log_fails (env w) (log_calls w) = false ->
  let d := py_int duration in
  let now := clock (env w) (clock_reads w) in
  exists w',
    WatchdogWindows.__init__ duration w
    = Ret {| WatchdogWindows._duration := d;
             WatchdogWindows.expire_at := Some (now + inject_Z d)%Q |} w'
    /\ env w' = env w
    /\ clock_reads w' = S (clock_reads w).
Proof.
  intros Hl d now. unfold WatchdogWindows.__init__.
  destruct (windows_reset_eq
              {| WatchdogWindows._duration := py_int duration;
                 WatchdogWindows.expire_at := None |} w Hl)
    as [w1 [Hreset [He [Hr _]]]].
  cbn in Hreset. rewrite (bind_Ret _ Hreset).
  unfold bind, thread_start, ret. eexists. split; [reflexivity |].
  cbn. split; assumption.
Qed.

Lemma windows_destruct_never_returns (w : World) (u : unit) (w' : World) :
  WatchdogWindows.destruct w <> Ret u w'.
Proof.
  unfold WatchdogWindows.destruct. run.
  destruct (log_fails (env w) (log_calls w)); cbn.
  - destruct (psutil (env w)); discriminate.
  - destruct (log_fails (env w) (S (log_calls w))); cbn;
      destruct (psutil (env w)); discriminate.
Qed.

Lemma watch_body_eq (v : PyVersion) (self : WatchdogWindows.t) (w : World)
  (deadline : Q) :
  WatchdogWindows.expire_at self = Some deadline ->
  WatchdogWindows.watch_body v self w =
  if Qltb deadline (clock (env w) (clock_reads w))
  then WatchdogWindows.destruct (after_check w)
  else Ret tt (after_turn (py_div v (WatchdogWindows._duration self) 20) w).
Proof.
  intro He. unfold WatchdogWindows.watch_body.
  rewrite (bind_Ret _ (time_time_eq w)).
  unfold WatchdogWindows.load_expire_at. rewrite He.
  unfold bind, event, ret. cbv beta iota. fold (after_check w).
  destruct (Qltb deadline (clock (env w) (clock_reads w))).
  - destruct (WatchdogWindows.destruct (after_check w)) as [u w' | |] eqn:Hd;
      try reflexivity.
    exfalso. exact (windows_destruct_never_returns _ _ _ Hd).
  - reflexivity.
Qed.

(** The loop kills at the first check that reads a time past the deadline. *)
Lemma watch_kills (v : PyVersion) (self : WatchdogWindows.t) (deadline : Q) :
  WatchdogWindows.expire_at self = Some deadline ->
  forall (n : nat) (w : World),
    psutil (env w) = true ->
    (forall k, (k < n)%nat ->
               (clock (env w) (k + clock_reads w) <= deadline)%Q) ->
    (deadline < clock (env w) (n + clock_reads w))%Q ->
    exists w',
      (forall m, WatchdogWindows.watch v (S n + m) self w = Kill w')
      /\ env w' = env w
      /\ clock_reads w' = (S n + clock_reads w)%nat.
Proof.
  intros He n. induction n as [| n IH]; intros w Hps Hbefore Hpast.
  - exists (destructed EvPsutilKill (after_check w)).
    split; [| split; reflexivity].
    intro m. cbn [Nat.add WatchdogWindows.watch].
    apply bind_Kill. rewrite (watch_body_eq v self w deadline He).
    cbn in Hpast. apply Qltb_lt in Hpast. rewrite Hpast.
    apply windows_destruct_kills. exact Hps.
  - set (s := py_div v (WatchdogWindows._duration self) 20).
    destruct (IH (after_turn s w)) as [w' [Hkill [He' Hr']]].
    + exact Hps.
    + intros k Hk. cbn [after_turn after_check read_clock emit tick_clock env
                        clock_reads].
      replace (k + S (clock_reads w))%nat with (S k + clock_reads w)%nat
        by lia.
      apply Hbefore. lia.
    + cbn [after_turn after_check read_clock emit tick_clock env clock_reads].
      replace (n + S (clock_reads w))%nat with (S n + clock_reads w)%nat
        by lia.
      exact Hpast.
    + exists w'. split; [| split].
      * intro m. change (S (S n) + m)%nat with (S (S n + m)).
        cbn [WatchdogWindows.watch].
        erewrite bind_Ret; [apply Hkill |].
        rewrite (watch_body_eq v self w deadline He).
        pose proof (Hbefore 0%nat (Nat.lt_0_succ n)) as H0. cbn in H0.
        apply Qltb_ge in H0. rewrite H0. reflexivity.
      * exact He'.
      * rewrite Hr'. cbn. lia.
Qed.

Lemma py_div_20_bounds (v : PyVersion) (d : Z) (x : Q) :
  (0 <= d)%Z -> (inject_Z d <= x)%Q ->
  (0 <= py_div v d 20 /\ py_div v d 20 <= x / 20)%Q.
Proof.
  intros Hd Hx.
  assert (Hq : (inject_Z 0 <= inject_Z d)%Q) by (rewrite <- Zle_Qle; exact Hd).
  change (inject_Z 0) with 0%Q in Hq.
  assert (Hdiv : (inject_Z d / inject_Z 20 <= x / 20)%Q).
  { change (inject_Z 20) with 20%Q. unfold Qdiv.
    apply Qmult_le_compat_r; [exact Hx | discriminate]. }
  destruct v; cbn [py_div].
  - split.
    + change 0%Q with (inject_Z 0). rewrite <- Zle_Qle.
      apply Z.div_pos; lia.
    + rewrite Zdiv_Qdiv.
      eapply Qle_trans; [apply Qfloor_le | exact Hdiv].
  - split; [| exact Hdiv].
    change (inject_Z 20) with 20%Q.
    apply Qle_shift_div_l; [reflexivity | lra].
Qed.

Lemma windows_destruct_trace (w : World) :
  exists rest, trace (final (WatchdogWindows.destruct w)) = trace w ++ rest.
Proof.
  unfold WatchdogWindows.destruct. run.
  destruct (log_fails (env w) (log_calls w)); cbn.
  - destruct (psutil (env w)); cbn; rewrite <- ?app_assoc; eexists; reflexivity.
  - destruct (log_fails (env w) (S (log_calls w))); cbn;
      destruct (psutil (env w)); cbn; rewrite <- ?app_assoc;
      eexists; reflexivity.
Qed.

Lemma windows_reset_added (self : WatchdogWindows.t) (w : World) :
  let d := WatchdogWindows._duration self in
  added (WatchdogWindows.reset self) w =
  if log_fails (env w) (log_calls w)
  then [EvLog DEBUG (ResettingFor d) true]
  else [EvLog DEBUG (ResettingFor d) false; EvAcquire;
        EvTime (clock (env w) (clock_reads w)); EvWrite "expire_at";
        EvRelease].
Proof.
  cbn zeta. apply added_app.
  unfold WatchdogWindows.reset, WatchdogWindows.with_tlock. run.
  destruct (log_fails (env w) (log_calls w)); cbn;
    rewrite <- ?app_assoc; reflexivity.
Qed.

Lemma watch_body_trace (v : PyVersion) (self : WatchdogWindows.t) (w : World) :
  exists rest,
    trace (final (WatchdogWindows.watch_body v self w))
    = trace w ++ EvTime (clock (env w) (clock_reads w))
                   :: EvRead "expire_at" :: rest.
Proof.
  assert (Hchk : trace (after_check w)
                 = trace w ++ [EvTime (clock (env w) (clock_reads w));
                               EvRead "expire_at"]).
  { unfold after_check, read_clock, emit. cbn [trace tick_clock].
    rewrite <- app_assoc. reflexivity. }
  destruct (WatchdogWindows.expire_at self) as [deadline |] eqn:He.
  - rewrite (watch_body_eq v self w deadline He).
    destruct (Qltb deadline _).
    + destruct (windows_destruct_trace (after_check w)) as [rest Hrest].
      exists rest. rewrite Hrest, Hchk, <- app_assoc. reflexivity.
    + eexists. unfold after_turn, emit at 1.
      cbn [final trace]. rewrite Hchk, <- app_assoc. reflexivity.
  - exists [].
    unfold WatchdogWindows.watch_body.
    rewrite (bind_Ret _ (time_time_eq w)).
    unfold WatchdogWindows.load_expire_at. rewrite He.
    unfold bind, event, raise. cbv beta iota. fold (after_check w).
    cbn [final]. exact Hchk.
Qed.

Lemma watch_body_added (v : PyVersion) (self : WatchdogWindows.t) (w : World) :
  exists rest,
    added (WatchdogWindows.watch_body v self) w
    = EvTime (clock (env w) (clock_reads w)) :: EvRead "expire_at" :: rest.
Proof.
  destruct (watch_body_trace v self w) as [rest H].
  exists rest. apply added_app. exact H.
Qed.

(** C9.  The two accesses to the deadline in every world: [reset] stores
    [expire_at] between the acquisition and the release of the lock (or
    not at all, when its logging call raised), whereas a turn of the loop of
    [watch] loads [expire_at] right after reading the clock, without having
    acquired the lock: the trace of the turn fails the lock discipline. *)
Theorem watch_reads_deadline_without_lock
  (v : PyVersion) (self : WatchdogWindows.t) (w : World) :
  guarded 0 (added (WatchdogWindows.reset self) w) = true
  /\ guarded 0 (added (WatchdogWindows.watch_body v self) w) = false
  /\ exists rest,
       added (WatchdogWindows.watch_body v self) w
       = EvTime (clock (env w) (clock_reads w)) :: EvRead "expire_at" :: rest.
Proof.
  split; [| split].
  - rewrite windows_reset_added.
    destruct (log_fails (env w) (log_calls w)); reflexivity.
  - destruct (watch_body_added v self w) as [rest ->]. reflexivity.
  - apply watch_body_added.
Qed.

(** ** Deadline enforcement by the polling loop *)


(** On Python 2 the quotient of two [int]s is an [int]: a duration of 5
    seconds gives a sleep of 0 seconds. *)
Lemma py2_sleep_of_5 : py_div Py2 5 20 = 0%Q /\ (py_div Py3 5 20 == 1 # 4)%Q.
Proof. split; reflexivity. Qed.





(** * Further properties of the module *)

(** ** The polling engine: construction, [reset] and the loop *)

Lemma windows_reset_fails (self : WatchdogWindows.t) (w : World) :
  log_fails (env w) (log_calls w) = true ->
  WatchdogWindows.reset self w
  = Raise LogFailure
      (emit (EvLog DEBUG (ResettingFor (WatchdogWindows._duration self)) true)
         (tick_log w)).
Proof.
  intro Hl. unfold WatchdogWindows.reset, bind, log_call.
  cbv beta zeta. rewrite Hl. reflexivity.
Qed.

Lemma windows_init_fails (duration : Q) (w : World) :
  log_fails (env w) (log_calls w) = true ->
  WatchdogWindows.__init__ duration w
  = Raise LogFailure
      (emit (EvLog DEBUG (ResettingFor (py_int duration)) true) (tick_log w)).
Proof.
  intro Hl. unfold WatchdogWindows.__init__.
  apply bind_Raise. apply (windows_reset_fails (unset_windows duration) w Hl).
Qed.

Lemma windows_init_added (duration : Q) (w : World) :
  added (WatchdogWindows.__init__ duration) w =
  if log_fails (env w) (log_calls w)
  then [EvLog DEBUG (ResettingFor (py_int duration)) true]
  else [EvLog DEBUG (ResettingFor (py_int duration)) false; EvAcquire;
        EvTime (clock (env w) (clock_reads w)); EvWrite "expire_at";
        EvRelease; EvStart].
Proof.
  apply added_app.
  unfold WatchdogWindows.__init__, WatchdogWindows.reset,
    WatchdogWindows.with_tlock. run.
  destruct (log_fails (env w) (log_calls w)); cbn;
    rewrite <- ?app_assoc; reflexivity.
Qed.

Lemma windows_destruct_without_psutil (w : World) :
  psutil (env w) = false ->
  exists w',
    WatchdogWindows.destruct w = Raise AttributeError w' /\ env w' = env w.
Proof.
  intro Hps. unfold WatchdogWindows.destruct. run.
  destruct (log_fails (env w) (log_calls w)); cbn.
  - rewrite Hps. eexists. split; reflexivity.
  - destruct (log_fails (env w) (S (log_calls w))); cbn; rewrite Hps;
      eexists; split; reflexivity.
Qed.

Lemma after_turn_fields (s : Q) (w : World) :
  env (after_turn s w) = env w
  /\ clock_reads (after_turn s w) = S (clock_reads w)
  /\ log_calls (after_turn s w) = log_calls w.
Proof. repeat split. Qed.

(** X1.  On a Windows host the factory builds the polling engine and drops
    the two limits: its outcome is the same for every [max_mem_mb] and
    [max_resets], and however it ends it has installed neither an
    address-space limit nor a SIGALRM handler nor an alarm, and has not
    queried the resident size. *)
Theorem factory_on_windows_ignores_limits
  (duration : Q) (mm mr mm' mr' : option Z) (w : World) :
  is_windows (env w) = true ->
  new_watchdog duration mm mr w = new_watchdog duration mm' mr' w
  /\ rlimit_as (final (new_watchdog duration mm mr w)) = rlimit_as w
  /\ sigalrm (final (new_watchdog duration mm mr w)) = sigalrm w
  /\ alarm (final (new_watchdog duration mm mr w)) = alarm w
  /\ ps_reads (final (new_watchdog duration mm mr w)) = ps_reads w
  /\ (log_fails (env w) (log_calls w) = false ->
      exists x w',
        new_watchdog duration mm mr w = Ret (OnWindows x) w'
        /\ WatchdogWindows._duration x = py_int duration
        /\ WatchdogWindows.expire_at x
           = Some (clock (env w) (clock_reads w)
                   + inject_Z (py_int duration))%Q).
Proof.
  intro Hwin. unfold new_watchdog. rewrite Hwin.
  split; [reflexivity |].
  destruct (log_fails (env w) (log_calls w)) eqn:Hl.
  - rewrite (bind_Raise _ (windows_init_fails duration w Hl)).
    repeat split. discriminate.
  - destruct (windows_reset_eq (unset_windows duration) w Hl)
      as [w1 [Hreset _]].
    assert (Hinit : WatchdogWindows.__init__ duration w
                    = Ret {| WatchdogWindows._duration := py_int duration;
                             WatchdogWindows.expire_at :=
                               Some (clock (env w) (clock_reads w)
                                     + inject_Z (py_int duration))%Q |}
                          (emit EvStart w1)).
    { unfold WatchdogWindows.__init__. fold (unset_windows duration).
      rewrite (bind_Ret _ Hreset). reflexivity. }
    rewrite (bind_Ret _ Hinit). unfold ret. cbn [final].
    assert (Hw1 : rlimit_as w1 = rlimit_as w /\ sigalrm w1 = sigalrm w
                  /\ alarm w1 = alarm w /\ ps_reads w1 = ps_reads w).
    { revert Hreset.
      unfold WatchdogWindows.reset, WatchdogWindows.with_tlock. run.
      rewrite Hl. cbn. intro H. injection H as <-. repeat split. }
    destruct Hw1 as [H1 [H2 [H3 H4]]].
    split; [exact H1 |]. split; [exact H2 |]. split; [exact H3 |].
    split; [exact H4 |]. intros _.
    eexists. eexists. split; [reflexivity |]. split; reflexivity.
Qed.

Lemma factory_on_windows_ignores_limits_witness :
  new_watchdog 5 (Some 100%Z) (Some 3%Z) (boot windows_env)
  = new_watchdog 5 None None (boot windows_env)
  /\ rlimit_as (final (new_watchdog 5 (Some 100%Z) (Some 3%Z)
                         (boot windows_env))) = None.
Proof.
  destruct (factory_on_windows_ignores_limits 5 (Some 100%Z) (Some 3%Z)
              None None (boot windows_env) eq_refl) as [H1 [H2 _]].
  split; [exact H1 | exact H2].
Defined.

(** With the deadline set and [psutil] present, no run of the loop ends in an
    exception. *)
Lemma watch_never_raises (v : PyVersion) (self : WatchdogWindows.t)
  (deadline : Q) :
  WatchdogWindows.expire_at self = Some deadline ->
  forall (fuel : nat) (w : World),
    psutil (env w) = true ->
    raised (WatchdogWindows.watch v fuel self w) = None.
Proof.
  intros He fuel. induction fuel as [| fuel IH]; intros w Hps.
  - reflexivity.
  - cbn [WatchdogWindows.watch]. unfold bind.
    rewrite (watch_body_eq v self w deadline He).
    destruct (Qltb deadline _).
    + rewrite windows_destruct_kills; [reflexivity | exact Hps].
    + apply IH. exact Hps.
Qed.

Lemma watch_unset_raises (v : PyVersion) (self : WatchdogWindows.t)
  (fuel : nat) (w : World) :
  WatchdogWindows.expire_at self = None ->
  WatchdogWindows.watch v (S fuel) self w
  = Raise AttributeError (after_check w).
Proof.
  intro He. cbn [WatchdogWindows.watch]. apply bind_Raise.
  unfold WatchdogWindows.watch_body.
  rewrite (bind_Ret _ (time_time_eq w)).
  apply bind_Raise. unfold WatchdogWindows.load_expire_at. rewrite He.
  reflexivity.
Qed.

(** X2.  The constructor of the polling engine stores the deadline and
    releases the lock before it starts the thread, so the loop of a
    constructed watchdog never fails on a missing deadline: for a
    non-negative duration and with [psutil] present no run of [watch], of any
    length and in any world, ends in an exception, whereas on the instance as
    it is before the first [reset] the first turn raises [AttributeError].
    The duration being non-negative, the time that the loop sleeps between
    two checks is non-negative as well, as [time.sleep] requires. *)
Theorem constructed_watch_never_raises
  (v : PyVersion) (duration : Q) (w w2 : World) (fuel : nat) :
  (0 <= duration)%Q ->
  log_fails (env w) (log_calls w) = false ->
  psutil (env w2) = true ->
  exists self w1,
    WatchdogWindows.__init__ duration w = Ret self w1
    /\ (exists pre,
          added (WatchdogWindows.__init__ duration) w
          = pre ++ [EvWrite "expire_at"; EvRelease; EvStart])
    /\ raised (WatchdogWindows.watch v fuel self w2) = None
    /\ raised (WatchdogWindows.watch v (S fuel) (unset_windows duration) w2)
       = Some AttributeError
    /\ (0 <= py_div v (WatchdogWindows._duration self) 20)%Q.
Proof.
  intros Hd Hl Hps.
  destruct (windows_init_eq duration w Hl) as [w1 [Hinit _]].
  cbn zeta in Hinit.
  set (self := {| WatchdogWindows._duration := py_int duration;
                  WatchdogWindows.expire_at :=
                    Some (clock (env w) (clock_reads w)
                          + inject_Z (py_int duration))%Q |}) in *.
  exists self, w1. split; [exact Hinit |].
  split; [| split; [| split]].
  - rewrite windows_init_added, Hl.
    exists [EvLog DEBUG (ResettingFor (py_int duration)) false; EvAcquire;
            EvTime (clock (env w) (clock_reads w))].
    reflexivity.
  - apply (watch_never_raises v self _ eq_refl fuel w2 Hps).
  - rewrite watch_unset_raises; reflexivity.
  - change (WatchdogWindows._duration self) with (py_int duration).
    apply (py_div_20_bounds v (py_int duration) (inject_Z (py_int duration))).
    + apply py_int_nonneg. exact Hd.
    + apply Qle_refl.
Qed.

Lemma constructed_watch_never_raises_witness :
  exists self w1,
    WatchdogWindows.__init__ 5 (boot windows_env) = Ret self w1
    /\ raised (WatchdogWindows.watch Py3 30 self w1) = None.
Proof.
  destruct (constructed_watch_never_raises Py3 5 (boot windows_env)
              (final (WatchdogWindows.__init__ 5 (boot windows_env))) 30)
    as [self [w1 [Hinit [_ [Hrun _]]]]]; try reflexivity.
  - discriminate.
  - exists self, w1. split; [exact Hinit |].
    rewrite Hinit in Hrun. exact Hrun.
Defined.

(** X3.  When the logging call of the first [reset] raises, the constructor
    of the polling engine raises with it: the lock is not taken, the deadline
    is not stored and, above all, the thread is not started; the only effect
    is the attempted log record. *)
Theorem windows_init_failure_starts_no_thread (duration : Q) (w : World) :
  log_fails (env w) (log_calls w) = true ->
  raised (WatchdogWindows.__init__ duration w) = Some LogFailure
  /\ added (WatchdogWindows.__init__ duration) w
     = [EvLog DEBUG (ResettingFor (py_int duration)) true]
  /\ ~ In EvStart (added (WatchdogWindows.__init__ duration) w)
  /\ forall mm mr,
       is_windows (env w) = true ->
       raised (new_watchdog duration mm mr w) = Some LogFailure.
Proof.
  intro Hl. split; [| split; [| split]].
  - rewrite (windows_init_fails duration w Hl). reflexivity.
  - rewrite windows_init_added, Hl. reflexivity.
  - rewrite windows_init_added, Hl. intros [H | []]. discriminate H.
  - intros mm mr Hwin. unfold new_watchdog. rewrite Hwin.
    rewrite (bind_Raise _ (windows_init_fails duration w Hl)). reflexivity.
Qed.

Lemma windows_init_failure_starts_no_thread_witness :
  raised (WatchdogWindows.__init__ 5 (boot broken_logger_env))
  = Some LogFailure.
Proof.
  destruct (windows_init_failure_starts_no_thread 5 (boot broken_logger_env)
              eq_refl) as [H _].
  exact H.
Defined.

Lemma watch_without_psutil_not_killed (v : PyVersion)
  (self : WatchdogWindows.t) (fuel : nat) :
  forall w,
    psutil (env w) = false ->
    killed (WatchdogWindows.watch v fuel self w) = false.
Proof.
  induction fuel as [| fuel IH]; intros w Hps.
  - reflexivity.
  - cbn [WatchdogWindows.watch]. unfold bind.
    destruct (WatchdogWindows.expire_at self) as [deadline |] eqn:He.
    + rewrite (watch_body_eq v self w deadline He).
      destruct (Qltb deadline _).
      * destruct (windows_destruct_without_psutil (after_check w) Hps)
          as [w' [Hd _]].
        rewrite Hd. reflexivity.
      * apply IH. exact Hps.
    + pose proof (watch_unset_raises v self 0 w He) as H.
      cbn [WatchdogWindows.watch] in H. unfold bind in H.
      destruct (WatchdogWindows.watch_body v self w); try discriminate H.
      reflexivity.
Qed.

(** The loop keeps turning, without entering [destruct], as long as its checks
    read times that are not past the deadline. *)
Lemma watch_survives (v : PyVersion) (self : WatchdogWindows.t)
  (deadline : Q) :
  WatchdogWindows.expire_at self = Some deadline ->
  forall (n : nat) (w : World),
    (forall k, (k < n)%nat ->
               (clock (env w) (k + clock_reads w) <= deadline)%Q) ->
    exists w',
      WatchdogWindows.watch v n self w = Ret tt w'
      /\ env w' = env w
      /\ clock_reads w' = (n + clock_reads w)%nat
      /\ log_calls w' = log_calls w.
Proof.
  intros He n. induction n as [| n IH]; intros w Hbefore.
  - exists w. repeat split.
  - set (s := py_div v (WatchdogWindows._duration self) 20).
    destruct (after_turn_fields s w) as [He1 [Hr1 Hl1]].
    destruct (IH (after_turn s w)) as [w' [Hrun [He' [Hr' Hl']]]].
    + intros k Hk. rewrite He1, Hr1.
      replace (k + S (clock_reads w))%nat with (S k + clock_reads w)%nat
        by lia.
      apply Hbefore. lia.
    + exists w'. split; [| split; [| split]].
      * cbn [WatchdogWindows.watch].
        erewrite bind_Ret; [exact Hrun |].
        rewrite (watch_body_eq v self w deadline He).
        pose proof (Hbefore 0%nat (Nat.lt_0_succ n)) as H0. cbn in H0.
        apply Qltb_ge in H0. rewrite H0. reflexivity.
      * congruence.
      * rewrite Hr', Hr1. lia.
      * congruence.
Qed.

Lemma watch_app (v : PyVersion) (self : WatchdogWindows.t) (n m : nat) :
  forall w,
    WatchdogWindows.watch v (n + m) self w
    = bind (WatchdogWindows.watch v n self)
        (fun _ => WatchdogWindows.watch v m self) w.
Proof.
  induction n as [| n IH]; intro w.
  - reflexivity.
  - cbn [Nat.add WatchdogWindows.watch]. unfold bind.
    destruct (WatchdogWindows.watch_body v self w) as [u w1 | |];
      try reflexivity.
    rewrite IH. reflexivity.
Qed.

(** X4.  Without [psutil] the polling engine cannot kill: no run of its loop,
    of any length, on any instance and under any clock, ends in the death of
    the process; at the first check past the deadline [destruct] raises
    [AttributeError] out of the loop, which ends the thread and leaves the
    process unwatched. *)
Theorem watch_without_psutil_never_kills
  (v : PyVersion) (self : WatchdogWindows.t) (deadline : Q) (n : nat)
  (w : World) :
  psutil (env w) = false ->
  WatchdogWindows.expire_at self = Some deadline ->
  (forall k, (k < n)%nat ->
             (clock (env w) (k + clock_reads w) <= deadline)%Q) ->
  (deadline < clock (env w) (n + clock_reads w))%Q ->
  (forall fuel self0 w0,
      psutil (env w0) = false ->
      killed (WatchdogWindows.watch v fuel self0 w0) = false)
  /\ forall m,
       raised (WatchdogWindows.watch v (n + S m) self w) = Some AttributeError.
Proof.
  intros Hps He Hbefore Hpast. split.
  - intros fuel self0 w0 H0. apply watch_without_psutil_not_killed. exact H0.
  - intro m. rewrite watch_app.
    destruct (watch_survives v self deadline He n w Hbefore)
      as [w' [Hrun [He' [Hr' _]]]].
    rewrite (bind_Ret _ Hrun). cbn [WatchdogWindows.watch]. unfold bind.
    rewrite (watch_body_eq v self w' deadline He), He', Hr'.
    apply Qltb_lt in Hpast. rewrite Hpast.
    destruct (windows_destruct_without_psutil (after_check w'))
      as [w'' [Hd _]].
    + change (env (after_check w')) with (env w'). rewrite He'. exact Hps.
    + rewrite Hd. reflexivity.
Qed.

Lemma watch_without_psutil_never_kills_witness :
  killed (WatchdogWindows.watch Py3 40
            {| WatchdogWindows._duration := 5;
               WatchdogWindows.expire_at := Some 5%Q |}
            (boot no_psutil_env)) = false
  /\ raised (WatchdogWindows.watch Py3 (6 + 1)
               {| WatchdogWindows._duration := 5;
                  WatchdogWindows.expire_at := Some 5%Q |}
               (boot no_psutil_env)) = Some AttributeError.
Proof.
  destruct (watch_without_psutil_never_kills Py3
              {| WatchdogWindows._duration := 5;
                 WatchdogWindows.expire_at := Some 5%Q |}
              5 6 (boot no_psutil_env)) as [H1 H2].
  - reflexivity.
  - reflexivity.
  - intros k Hk. cbn [clock no_psutil_env env boot clock_reads].
    change 5%Q with (inject_Z 5). rewrite <- Zle_Qle. lia.
  - reflexivity.
  - split; [apply H1; reflexivity | apply (H2 0%nat)].
Defined.

(** X5.  A [reset] of the polling engine postpones the kill, whatever the
    deadline was before (unset or already past): after it, the loop enters
    [destruct] in none of the turns whose checks read a time at most
    [duration] seconds after the clock reading of the [reset]; a check made
    exactly at the new deadline does not kill. *)
Theorem windows_reset_postpones_the_kill
  (v : PyVersion) (self : WatchdogWindows.t) (w : World) (n : nat) :
  log_fails (env w) (log_calls w) = false ->
  (forall k, (k < n)%nat ->
     (clock (env w) (k + S (clock_reads w))
      <= clock (env w) (clock_reads w)
         + inject_Z (WatchdogWindows._duration self))%Q) ->
  exists self' w1 w',
    WatchdogWindows.reset self w = Ret self' w1
    /\ WatchdogWindows.expire_at self'
       = Some (clock (env w) (clock_reads w)
               + inject_Z (WatchdogWindows._duration self))%Q
    /\ WatchdogWindows.watch v n self' w1 = Ret tt w'
    /\ log_calls w' = log_calls w1
    /\ clock_reads w' = (n + S (clock_reads w))%nat.
Proof.
  intros Hl Hbefore.
  destruct (windows_reset_eq self w Hl) as [w1 [Hreset [He [Hr _]]]].
  cbn zeta in Hreset.
  set (self' := {| WatchdogWindows._duration := WatchdogWindows._duration self;
                   WatchdogWindows.expire_at :=
                     Some (clock (env w) (clock_reads w)
                           + inject_Z (WatchdogWindows._duration self))%Q |})
    in *.
  destruct (watch_survives v self' _ eq_refl n w1) as [w' [Hrun [_ [Hr' Hl']]]].
  - intros k Hk. rewrite He, Hr. apply Hbefore. exact Hk.
  - exists self', w1, w'. split; [exact Hreset |]. split; [reflexivity |].
    split; [exact Hrun |]. split; [exact Hl' |]. rewrite Hr', Hr. reflexivity.
Qed.

Lemma windows_reset_postpones_the_kill_witness :
  exists self' w1 w',
    WatchdogWindows.reset
      {| WatchdogWindows._duration := 5;
         WatchdogWindows.expire_at := Some (-100)%Q |} (boot windows_env)
    = Ret self' w1
    /\ WatchdogWindows.watch Py3 5 self' w1 = Ret tt w'.
Proof.
  destruct (windows_reset_postpones_the_kill Py3
              {| WatchdogWindows._duration := 5;
                 WatchdogWindows.expire_at := Some (-100)%Q |}
              (boot windows_env) 5)
    as [self' [w1 [w' [Hreset [_ [Hrun _]]]]]].
  - reflexivity.
  - intros k Hk. cbn [clock windows_env env boot clock_reads
                      WatchdogWindows._duration].
    rewrite <- inject_Z_plus, <- Zle_Qle. lia.
  - exists self', w1, w'. split; [exact Hreset | exact Hrun].
Defined.

Lemma lock_depth_windows_reset (self : WatchdogWindows.t) (w : World) :
  lock_depth (added (WatchdogWindows.reset self) w) = 0%Z.
Proof.
  rewrite windows_reset_added.
  destruct (log_fails (env w) (log_calls w)); reflexivity.
Qed.

(** X6.  The [reset] of the polling engine only moves the deadline: however
    it ends it has not killed the process, has not queried the resident size
    and has left the alarm, the SIGALRM handler and the address-space limit
    as they were (the memory and activity checks are not made on this
    engine), and it has released the lock as often as it took it; when it
    returns, the duration is unchanged and the deadline is the time it read
    plus the duration. *)
Theorem windows_reset_only_moves_deadline
  (self : WatchdogWindows.t) (w : World) :
  killed (WatchdogWindows.reset self w) = false
  /\ ps_reads (final (WatchdogWindows.reset self w)) = ps_reads w
  /\ alarm (final (WatchdogWindows.reset self w)) = alarm w
  /\ sigalrm (final (WatchdogWindows.reset self w)) = sigalrm w
  /\ rlimit_as (final (WatchdogWindows.reset self w)) = rlimit_as w
  /\ lock_depth (added (WatchdogWindows.reset self) w) = 0%Z
  /\ forall self' w',
       WatchdogWindows.reset self w = Ret self' w' ->
       WatchdogWindows._duration self' = WatchdogWindows._duration self
       /\ WatchdogWindows.expire_at self'
          = Some (clock (env w) (clock_reads w)
                  + inject_Z (WatchdogWindows._duration self))%Q.
Proof.
  destruct (log_fails (env w) (log_calls w)) eqn:Hl.
  - rewrite (windows_reset_fails self w Hl).
    repeat split; try reflexivity.
    + pose proof (lock_depth_windows_reset self w) as H.
      rewrite windows_reset_added, Hl in *. exact H.
    + discriminate.
    + discriminate.
  - assert (Heq : WatchdogWindows.reset self w
                  = Ret {| WatchdogWindows._duration :=
                             WatchdogWindows._duration self;
                           WatchdogWindows.expire_at :=
                             Some (clock (env w) (clock_reads w)
                                   + inject_Z (WatchdogWindows._duration self))%Q |}
                        (emit EvRelease
                           (emit (EvWrite "expire_at")
                              (read_clock
                                 (emit EvAcquire
                                    (emit (EvLog DEBUG
                                             (ResettingFor
                                                (WatchdogWindows._duration self))
                                             false) (tick_log w))))))).
    { unfold WatchdogWindows.reset, WatchdogWindows.with_tlock,
        try_finally, bind, log_call, event, time_time, ret.
      cbv beta zeta. rewrite Hl. reflexivity. }
    split; [rewrite Heq; reflexivity |].
    split; [rewrite Heq; reflexivity |].
    split; [rewrite Heq; reflexivity |].
    split; [rewrite Heq; reflexivity |].
    split; [rewrite Heq; reflexivity |].
    split; [apply lock_depth_windows_reset |].
    intros self' w' H. rewrite Heq in H. injection H as <- _.
    split; reflexivity.
Qed.

Lemma py_int_small (d : Q) :
  (-1 < d)%Q -> (d < 1)%Q -> py_int d = 0%Z.
Proof.
  destruct d as [n den]. unfold py_int, Qlt. cbn [Qnum Qden].
  intros Hlo Hhi. apply Z.quot_small_iff; lia.
Qed.

(** X7.  The polling engine coerces the duration with [int]: for every
    duration strictly between -1 and 1 the stored duration is 0 and the
    deadline is the very time read by the constructor, so that the first
    check of the loop that reads a later time kills the process. *)
Theorem windows_subsecond_duration_fires_at_once
  (v : PyVersion) (d : Q) (w : World) :
  (-1 < d)%Q -> (d < 1)%Q ->
  log_fails (env w) (log_calls w) = false ->
  psutil (env w) = true ->
  (clock (env w) (clock_reads w) < clock (env w) (S (clock_reads w)))%Q ->
  exists self w1 w',
    WatchdogWindows.__init__ d w = Ret self w1
    /\ WatchdogWindows._duration self = 0%Z
    /\ WatchdogWindows.expire_at self
       = Some (clock (env w) (clock_reads w) + inject_Z 0)%Q
    /\ forall m, WatchdogWindows.watch v (1 + m) self w1 = Kill w'.
Proof.
  intros Hlo Hhi Hl Hps Hlater.
  destruct (windows_init_eq d w Hl) as [w1 [Hinit [He Hr]]].
  cbn zeta in Hinit. rewrite (py_int_small d Hlo Hhi) in Hinit.
  set (self := {| WatchdogWindows._duration := 0;
                  WatchdogWindows.expire_at :=
                    Some (clock (env w) (clock_reads w) + inject_Z 0)%Q |})
    in *.
  destruct (watch_kills v self _ eq_refl 0 w1) as [w' [Hk _]].
  - rewrite He. exact Hps.
  - intros k Hk. inversion Hk.
  - rewrite He, Hr. cbn [Nat.add]. change (inject_Z 0) with 0%Q. lra.
  - exists self, w1, w'. split; [exact Hinit |]. split; [reflexivity |].
    split; [reflexivity | exact Hk].
Qed.

Lemma windows_subsecond_duration_fires_at_once_witness :
  exists self w1 w',
    WatchdogWindows.__init__ (1 # 2) (boot windows_env) = Ret self w1
    /\ WatchdogWindows.watch Py3 1 self w1 = Kill w'.
Proof.
  destruct (windows_subsecond_duration_fires_at_once Py3 (1 # 2)
              (boot windows_env))
    as [self [w1 [w' [Hinit [_ [_ Hk]]]]]]; try reflexivity.
  exists self, w1, w'. split; [exact Hinit | exact (Hk 0%nat)].
Defined.

(** ** The timer-driven engine: what [reset] leaves alone *)

Lemma check_memory_set_restarts (r : list Q) (self : WatchdogPosix.t) :
  WatchdogPosix.check_memory (WatchdogPosix.set_restarts r self)
  = WatchdogPosix.check_memory self.
Proof. reflexivity. Qed.

Lemma preserves_ret {X A : Type} (f : World -> X) (a : A) :
  preserves f (ret a).
Proof. intro w. reflexivity. Qed.

Lemma preserves_bind {X A B : Type} (f : World -> X) (m : M A) (k : A -> M B) :
  preserves f m -> (forall a, preserves f (k a)) -> preserves f (bind m k).
Proof.
  intros Hm Hk w. unfold bind. specialize (Hm w).
  destruct (m w) as [a w1 | ex w1 | w1]; cbn [final] in *.
  - rewrite Hk. exact Hm.
  - exact Hm.
  - exact Hm.
Qed.

Lemma preserves_try_finally {X A : Type} (f : World -> X) (body : M A)
  (fin : M unit) :
  preserves f body -> preserves f fin -> preserves f (try_finally body fin).
Proof.
  intros Hb Hf w. unfold try_finally. specialize (Hb w).
  destruct (body w) as [a w1 | ex w1 | w1]; cbn [final] in *.
  - specialize (Hf w1). destruct (fin w1); cbn [final] in *; congruence.
  - specialize (Hf w1). destruct (fin w1); cbn [final] in *; congruence.
  - exact Hb.
Qed.

Section Preserved.

(** An observation of the world that the trace, the counters of the clock and
    of the logger, and the alarm do not enter. *)
Variable X : Type.
Variable f : World -> X.

Hypothesis f_emit : forall ev w, f (emit ev w) = f w.
Hypothesis f_tick_clock : forall w, f (tick_clock w) = f w.
Hypothesis f_tick_log : forall w, f (tick_log w) = f w.
Hypothesis f_set_alarm : forall a w, f (set_alarm a w) = f w.

Lemma preserves_time_time : preserves f time_time.
Proof.
  intro w. unfold time_time. cbn [final]. rewrite f_emit, f_tick_clock.
  reflexivity.
Qed.

Lemma preserves_log_call (l : LogLevel) (m : LogMsg) :
  preserves f (log_call l m).
Proof.
  intro w. unfold log_call. cbv zeta.
  destruct (log_fails (env w) (log_calls w)); cbn [final];
    rewrite f_emit, f_tick_log; reflexivity.
Qed.

Lemma preserves_self_destruct : preserves f WatchdogPosix.self_destruct.
Proof.
  unfold WatchdogPosix.self_destruct. apply preserves_try_finally.
  - apply preserves_bind; [apply preserves_log_call |].
    intros _. apply preserves_log_call.
  - intro w. unfold os_kill_self. cbn [final]. apply f_emit.
Qed.

Lemma preserves_is_frenetic (v : PyVersion) (self : WatchdogPosix.t) :
  preserves f (WatchdogPosix._is_frenetic v self).
Proof.
  unfold WatchdogPosix._is_frenetic.
  apply preserves_bind; [apply preserves_time_time |]. intro now.
  apply preserves_bind.
  - unfold WatchdogPosix.len_gt.
    destruct (WatchdogPosix._max_resets _) as [n |].
    + apply preserves_ret.
    + destruct v; [apply preserves_ret | intro w; reflexivity].
  - intro b. apply preserves_ret.
Qed.

Lemma preserves_check_activity (v : PyVersion) (self : WatchdogPosix.t) :
  preserves f (WatchdogPosix.check_activity v self).
Proof.
  unfold WatchdogPosix.check_activity.
  destruct (truthy (WatchdogPosix._max_resets self)); [| apply preserves_ret].
  apply preserves_bind; [apply preserves_time_time |]. intro now.
  apply preserves_bind; [apply preserves_is_frenetic |].
  intros [frenetic self2].
  apply preserves_bind; [| intros _; apply preserves_ret].
  destruct frenetic; [apply preserves_self_destruct | apply preserves_ret].
Qed.

Lemma preserves_rearm (self : WatchdogPosix.t) :
  preserves f (WatchdogPosix.rearm self).
Proof.
  unfold WatchdogPosix.rearm.
  apply preserves_bind; [apply preserves_log_call |]. intros _.
  intro w. unfold signal_alarm. cbn [final]. rewrite f_emit, f_set_alarm.
  reflexivity.
Qed.

Lemma preserves_check_memory_off (self : WatchdogPosix.t) :
  WatchdogPosix.memory_limit_enabled self = false ->
  preserves f (WatchdogPosix.check_memory self).
Proof.
  intro H. unfold WatchdogPosix.check_memory. rewrite H. apply preserves_ret.
Qed.

Lemma preserves_check_memory (self : WatchdogPosix.t) :
  (forall w, f (tick_ps w) = f w) ->
  preserves f (WatchdogPosix.check_memory self).
Proof.
  intro f_tick_ps. unfold WatchdogPosix.check_memory.
  destruct (WatchdogPosix.memory_limit_enabled self); [| apply preserves_ret].
  apply preserves_bind.
  - intro w. unfold ps_rss_kb. cbn [final]. rewrite f_emit, f_tick_ps.
    reflexivity.
  - intro rss. destruct (WatchdogPosix._max_mem_kb self) as [kb |].
    + destruct (Qltb _ _); [apply preserves_self_destruct | apply preserves_ret].
    + intro w. reflexivity.
Qed.

Lemma preserves_reset (v : PyVersion) (self : WatchdogPosix.t) :
  preserves f (WatchdogPosix.check_memory self) ->
  preserves f (WatchdogPosix.reset v self).
Proof.
  intro Hmem. unfold WatchdogPosix.reset.
  apply preserves_bind; [exact Hmem |]. intros _.
  apply preserves_bind; [apply preserves_check_activity |]. intro self'.
  apply preserves_bind; [apply preserves_rearm |]. intros _.
  apply preserves_ret.
Qed.

Lemma preserves_resets (v : PyVersion) (n : nat) :
  forall self,
    preserves f (WatchdogPosix.check_memory self) ->
    preserves f (WatchdogPosix.resets v n self).
Proof.
  induction n as [| n IH]; intros self Hmem.
  - apply preserves_ret.
  - cbn [WatchdogPosix.resets]. intro w. unfold bind.
    pose proof (preserves_reset v self Hmem w) as Hstep.
    destruct (WatchdogPosix.reset v self w) as [self1 w1 | ex w1 | w1] eqn:Hr;
      cbn [final] in Hstep; try exact Hstep.
    rewrite IH; [exact Hstep |].
    apply reset_returns in Hr. destruct Hr as [_ Hr].
    destruct (truthy (WatchdogPosix._max_resets self)).
    + destruct Hr as [-> _]. rewrite check_memory_set_restarts. exact Hmem.
    + destruct Hr as [-> _]. exact Hmem.
Qed.

End Preserved.

Lemma resets_same_config (v : PyVersion) (n : nat) :
  forall (self self' : WatchdogPosix.t) (w w' : World),
    WatchdogPosix.resets v n self w = Ret self' w' -> same_config self' self.
Proof.
  induction n as [| n IH]; intros self self' w w'.
  - cbn. unfold ret. intro H. injection H as <- _. repeat split.
  - cbn [WatchdogPosix.resets]. unfold bind.
    destruct (WatchdogPosix.reset v self w) as [self1 w1 | |] eqn:Hr;
      try discriminate.
    intro Hrun. apply IH in Hrun. apply reset_returns in Hr.
    destruct Hr as [_ Hr].
    destruct (truthy (WatchdogPosix._max_resets self));
      destruct Hr as [-> _]; exact Hrun.
Qed.

(** X8.  No run of resets of the timer-driven engine, however it ends,
    changes the SIGALRM handler, the address-space limit or what the process
    observes, and a run that returns hands back an instance with the same
    duration, memory ceiling and cap: only the activity window and the alarm
    move. *)
Theorem resets_keep_configuration
  (v : PyVersion) (n : nat) (self : WatchdogPosix.t) (w : World) :
  sigalrm (final (WatchdogPosix.resets v n self w)) = sigalrm w
  /\ rlimit_as (final (WatchdogPosix.resets v n self w)) = rlimit_as w
  /\ env (final (WatchdogPosix.resets v n self w)) = env w
  /\ forall self' w',
       WatchdogPosix.resets v n self w = Ret self' w' ->
       same_config self' self.
Proof.
  split; [| split; [| split]].
  - apply (preserves_resets _ sigalrm); try reflexivity.
    apply preserves_check_memory; reflexivity.
  - apply (preserves_resets _ rlimit_as); try reflexivity.
    apply preserves_check_memory; reflexivity.
  - apply (preserves_resets _ env); try reflexivity.
    apply preserves_check_memory; reflexivity.
  - intros self' w'. apply resets_same_config.
Qed.

(** X9.  Without a memory ceiling no run of resets queries the resident size:
    the [ps] process is never spawned, however the run ends. *)
Theorem resets_without_ceiling_never_run_ps
  (v : PyVersion) (n : nat) (self : WatchdogPosix.t) (w : World) :
  WatchdogPosix.memory_limit_enabled self = false ->
  ps_reads (final (WatchdogPosix.resets v n self w)) = ps_reads w.
Proof.
  intro H. apply (preserves_resets _ ps_reads); try reflexivity.
  apply preserves_check_memory_off; try reflexivity. exact H.
Qed.

Lemma resets_without_ceiling_never_run_ps_witness :
  ps_reads (final (WatchdogPosix.resets Py2 10 capped_3 (boot (ticking_env 1))))
  = 0%nat.
Proof.
  exact (resets_without_ceiling_never_run_ps Py2 10 capped_3
           (boot (ticking_env 1)) eq_refl).
Defined.

(** ** The timer-driven engine: edges of the activity check and of the alarm *)

(** The world and the window of a reset that returned. *)
Lemma reset_returned (v : PyVersion) (self self' : WatchdogPosix.t)
  (w w' : World) :
  WatchdogPosix.reset v self w = Ret self' w' ->
  w' = after_rearm self'
         (if truthy (WatchdogPosix._max_resets self)
          then read_clock (read_clock (after_memory self w))
          else after_memory self w)
  /\ (truthy (WatchdogPosix._max_resets self) = true ->
      over_cap (WatchdogPosix._max_resets self) (WatchdogPosix._restarts self')
      = false).
Proof.
  unfold WatchdogPosix.reset. unfold bind at 1.
  destruct (WatchdogPosix.check_memory self w) as [u wm | |] eqn:Hmem;
    try discriminate.
  apply check_memory_returns in Hmem. subst wm.
  destruct (after_memory_env self w) as [He [Hr _]].
  destruct (truthy (WatchdogPosix._max_resets self)) eqn:Ht.
  - pose proof (check_activity_on v self (after_memory self w) Ht) as Hact.
    cbn zeta in Hact.
    destruct (over_cap _ _) eqn:Ho.
    + rewrite (bind_Kill _ Hact). discriminate.
    + rewrite (bind_Ret _ Hact). unfold bind, ret. rewrite rearm_eq.
      destruct (log_fails _ _); [discriminate |].
      intro H. injection H as <- <-. split; [reflexivity |].
      intros _. exact Ho.
  - rewrite (bind_Ret _ (check_activity_off v self _ Ht)). unfold bind, ret.
    rewrite rearm_eq. destruct (log_fails _ _); [discriminate |].
    intro H. injection H as <- <-. split; [reflexivity | discriminate].
Qed.

(** X10.  A negative cap is truthy and every window is longer than it: when
    the memory check passes, the first [reset] is killed by the activity
    check, whatever the clock shows and whatever the window holds. *)
Theorem negative_cap_kills_first_reset
  (v : PyVersion) (self : WatchdogPosix.t) (cap : Z) (w : World) :
  WatchdogPosix._max_resets self = Some cap ->
  (cap < 0)%Z ->
  consistent self ->
  mem_trips self (rss_now w) = false ->
  exists w',
    WatchdogPosix.check_activity v self (after_memory self w) = Kill w'
    /\ WatchdogPosix.reset v self w = Kill w'
    /\ alarm w' = alarm w.
Proof.
  intros Hcap Hneg Hc Hm.
  assert (Ht : truthy (WatchdogPosix._max_resets self) = true).
  { rewrite Hcap. cbn. apply negb_true_iff, Z.eqb_neq. lia. }
  pose proof (check_activity_on v self (after_memory self w) Ht) as Hact.
  cbn zeta in Hact. rewrite Hcap in Hact. unfold over_cap in Hact.
  replace (cap <? Z.of_nat _)%Z with true in Hact
    by (symmetry; apply Z.ltb_lt; lia).
  eexists. split; [exact Hact |]. split.
  - unfold WatchdogPosix.reset.
    rewrite (bind_Ret _ (check_memory_passes self w Hc Hm)).
    apply bind_Kill. exact Hact.
  - destruct (after_memory_env self w) as [_ [_ [_ Ha]]].
    cbn [alarm destructed]. exact Ha.
Qed.

Lemma negative_cap_kills_first_reset_witness :
  killed (WatchdogPosix.reset Py2 capped_minus_1 (boot (ticking_env 1000)))
  = true.
Proof.
  destruct (negative_cap_kills_first_reset Py2 capped_minus_1 (-1)
              (boot (ticking_env 1000))) as [w' [_ [H _]]].
  - reflexivity.
  - reflexivity.
  - intro H. discriminate H.
  - reflexivity.
  - rewrite H. reflexivity.
Defined.

Lemma flush_all_old (now : Q) (old rest : list Q) :
  Forall (fun t => t < now - 60)%Q old ->
  WatchdogPosix.flush now (old ++ rest) = WatchdogPosix.flush now rest.
Proof.
  induction old as [| t0 old IH]; intro H.
  - reflexivity.
  - inversion H as [| ? ? Ht Hold]; subst.
    cbn [app]. rewrite flush_cons.
    apply Qltb_lt in Ht. rewrite Ht. apply IH. exact Hold.
Qed.

(** X11.  A quiet period clears the history: when every stamp in the window
    is more than 60 seconds older than the time read by the flush, the window
    after the [reset] holds at most the stamp just appended, so with a cap of
    at least 1 the [reset] that follows a burst and a pause is not killed, in
    an environment where the memory check and the logging do not interfere. *)
Theorem quiet_period_clears_history
  (v : PyVersion) (self : WatchdogPosix.t) (cap : Z) (w : World) :
  WatchdogPosix._max_resets self = Some cap ->
  (1 <= cap)%Z ->
  calm self (env w) ->
  Forall (fun t => t < clock (env w) (S (clock_reads w)) - 60)%Q
    (WatchdogPosix._restarts self) ->
  exists self' w',
    WatchdogPosix.reset v self w = Ret self' w'
    /\ (WatchdogPosix._restarts self' = [clock (env w) (clock_reads w)]
        \/ WatchdogPosix._restarts self' = []).
Proof.
  intros Hcap Hpos Hcalm Hold.
  assert (Ht : truthy (WatchdogPosix._max_resets self) = true).
  { rewrite Hcap. cbn. apply negb_true_iff, Z.eqb_neq. lia. }
  assert (Hwin : next_window (env w) (clock_reads w)
                   (WatchdogPosix._restarts self)
                 = [clock (env w) (clock_reads w)]
                 \/ next_window (env w) (clock_reads w)
                      (WatchdogPosix._restarts self) = []).
  { unfold next_window. rewrite (flush_all_old _ _ _ Hold), flush_cons.
    destruct (Qltb _ _); [right | left]; reflexivity. }
  pose proof (reset_calm v self w Hcalm) as Hstep. cbn zeta in Hstep.
  rewrite Ht, Hcap in Hstep. cbn [andb] in Hstep.
  assert (Ho : over_cap (Some cap)
                 (next_window (env w) (clock_reads w)
                    (WatchdogPosix._restarts self)) = false).
  { unfold over_cap. apply Z.ltb_ge.
    destruct Hwin as [-> | ->]; cbn [List.length]; lia. }
  rewrite Ho in Hstep. destruct Hstep as [w' [Hreset _]].
  eexists. exists w'. split; [exact Hreset |]. exact Hwin.
Qed.

Lemma quiet_period_clears_history_witness :
  exists self' w',
    WatchdogPosix.reset Py2
      (WatchdogPosix.set_restarts [-100; -90; -80]%Q capped_3)
      (boot (ticking_env 100)) = Ret self' w'
    /\ (Z.of_nat (List.length (WatchdogPosix._restarts self')) <= 1)%Z.
Proof.
  destruct (quiet_period_clears_history Py2
              (WatchdogPosix.set_restarts [-100; -90; -80]%Q capped_3) 3
              (boot (ticking_env 100))) as [self' [w' [Hreset Hwin]]].
  - reflexivity.
  - lia.
  - apply calm_without_ceiling. reflexivity.
  - repeat constructor.
  - exists self', w'. split; [exact Hreset |].
    destruct Hwin as [-> | ->]; cbn [List.length]; lia.
Defined.

(** X12.  A process that survives its resets never holds more stamps than the
    cap: after every run of at least one [reset] that returns under a non-zero
    cap, the cap is positive and the window is no longer than the cap. *)
Theorem surviving_window_within_cap
  (v : PyVersion) (n : nat) (self self' : WatchdogPosix.t) (cap : Z)
  (w w' : World) :
  WatchdogPosix._max_resets self = Some cap ->
  cap <> 0%Z ->
  WatchdogPosix.resets v (S n) self w = Ret self' w' ->
  (0 < cap)%Z
  /\ (Z.of_nat (List.length (WatchdogPosix._restarts self')) <= cap)%Z.
Proof.
  intros Hcap Hnz Hrun. rewrite resets_last in Hrun. unfold bind in Hrun.
  destruct (WatchdogPosix.resets v n self w) as [selfn wn | |] eqn:Hn;
    try discriminate.
  apply resets_same_config in Hn. destruct Hn as [_ [_ [_ Hc]]].
  rewrite Hcap in Hc.
  apply reset_returned in Hrun. destruct Hrun as [_ Hover].
  rewrite Hc in Hover. unfold over_cap in Hover.
  assert (Ht : truthy (Some cap) = true).
  { cbn. apply negb_true_iff, Z.eqb_neq. exact Hnz. }
  specialize (Hover Ht). apply Z.ltb_ge in Hover. lia.
Qed.

Lemma surviving_window_within_cap_witness :
  exists self' w',
    WatchdogPosix.resets Py2 3 capped_3 (boot (ticking_env 1)) = Ret self' w'
    /\ (Z.of_nat (List.length (WatchdogPosix._restarts self')) <= 3)%Z.
Proof.
  destruct (WatchdogPosix.resets Py2 3 capped_3 (boot (ticking_env 1)))
    as [self' w' | ex w' | w'] eqn:Hrun.
  - exists self', w'. split; [reflexivity |].
    apply (surviving_window_within_cap Py2 2 capped_3 self' 3
             (boot (ticking_env 1)) w' eq_refl); [discriminate | exact Hrun].
  - vm_compute in Hrun. discriminate Hrun.
  - vm_compute in Hrun. discriminate Hrun.
Defined.

(** X13.  The timer-driven engine coerces the duration with [int]: for every
    duration strictly between -1 and 1 the stored duration is 0, and every
    [reset] that returns ends with [signal.alarm(0)], which schedules nothing
    and cancels the pending alarm: no timeout is armed. *)
Theorem posix_subsecond_duration_cancels_alarm
  (v : PyVersion) (d : Q) (self self' : WatchdogPosix.t) (w w' : World) :
  (-1 < d)%Q -> (d < 1)%Q ->
  WatchdogPosix._duration self = py_int d ->
  WatchdogPosix.reset v self w = Ret self' w' ->
  alarm w' = None
  /\ exists pre, trace w' = pre ++ [EvAlarm 0].
Proof.
  intros Hlo Hhi Hd Hreset.
  pose proof (reset_returns v self self' w w' Hreset) as [_ Hself].
  assert (Hd' : WatchdogPosix._duration self' = 0%Z).
  { rewrite <- (py_int_small d Hlo Hhi), <- Hd.
    destruct (truthy (WatchdogPosix._max_resets self));
      destruct Hself as [-> _]; reflexivity. }
  apply reset_returned in Hreset. destruct Hreset as [-> _].
  set (w2 := if truthy (WatchdogPosix._max_resets self)
             then read_clock (read_clock (after_memory self w))
             else after_memory self w).
  destruct (after_rearm_fields self' w2) as [_ [_ [Ha Htr]]].
  rewrite Hd' in Ha, Htr. split; [exact Ha |].
  eexists. rewrite Htr.
  change [EvLog DEBUG (ResettingFor 0) (log_fails (env w2) (log_calls w2));
          EvAlarm 0]
    with ([EvLog DEBUG (ResettingFor 0) (log_fails (env w2) (log_calls w2))]
            ++ [EvAlarm 0]).
  rewrite app_assoc. reflexivity.
Qed.

Lemma posix_subsecond_duration_cancels_alarm_witness :
  exists self' w',
    WatchdogPosix.reset Py2 half_second (boot (ticking_env 1)) = Ret self' w'
    /\ alarm w' = None.
Proof.
  destruct (WatchdogPosix.reset Py2 half_second (boot (ticking_env 1)))
    as [self' w' | ex w' | w'] eqn:Hrun.
  - exists self', w'. split; [reflexivity |].
    destruct (posix_subsecond_duration_cancels_alarm Py2 (1 # 2) half_second
                self' (boot (ticking_env 1)) w') as [Ha _];
      [reflexivity | reflexivity | reflexivity | exact Hrun | exact Ha].
  - vm_compute in Hrun. discriminate Hrun.
  - vm_compute in Hrun. discriminate Hrun.
Defined.

Lemma filter_all_recent (now : Q) (win : list Q) :
  Forall (fun t => now - 60 <= t)%Q win -> filter (recent now) win = win.
Proof.
  induction 1 as [| t0 rest Ht _ IH]; [reflexivity |].
  cbn [filter]. unfold recent at 1.
  apply Qltb_ge in Ht. change WatchdogPosix._RESTART_TIMEFRAME with 60%Q.
  rewrite Ht. cbn [negb]. rewrite IH. reflexivity.
Qed.

(** On an ordered window the loop that pops from the left keeps exactly the
    stamps that are no older than the timeframe. *)
Lemma flush_filter_sorted (now : Q) (win : list Q) :
  StronglySorted Qle win ->
  WatchdogPosix.flush now win = filter (recent now) win.
Proof.
  induction 1 as [| t0 rest Hs IH Hall]; [reflexivity |].
  rewrite flush_cons. cbn [filter]. unfold recent at 1.
  change WatchdogPosix._RESTART_TIMEFRAME with 60%Q.
  destruct (Qltb t0 (now - 60)) eqn:Hlt; cbn [negb].
  - exact IH.
  - rewrite filter_all_recent; [reflexivity |].
    apply Qltb_ge in Hlt.
    eapply Forall_impl; [| exact Hall]. cbn. intros t Ht. lra.
Qed.

(** X14.  On a window that is ordered oldest-first, [_is_frenetic] keeps
    exactly the stamps that are no older than 60 seconds at the time it reads,
    wherever they stand, and answers whether their number exceeds the cap: the
    length compared with the cap is the number of resets of the last 60
    seconds. *)
Theorem is_frenetic_counts_recent_resets
  (v : PyVersion) (self : WatchdogPosix.t) (cap : Z) (w : World) :
  WatchdogPosix._max_resets self = Some cap ->
  StronglySorted Qle (WatchdogPosix._restarts self) ->
  let now := clock (env w) (clock_reads w) in
  let kept := filter (recent now) (WatchdogPosix._restarts self) in
  WatchdogPosix._is_frenetic v self w
  = Ret ((cap <? Z.of_nat (List.length kept))%Z,
         WatchdogPosix.set_restarts kept self)
        (read_clock w).
Proof.
  intros Hcap Hs now kept.
  rewrite (is_frenetic_eq v self w cap Hcap). cbn zeta.
  rewrite (flush_filter_sorted _ _ Hs). reflexivity.
Qed.

Lemma is_frenetic_counts_recent_resets_witness :
  WatchdogPosix._is_frenetic Py2
    (WatchdogPosix.set_restarts [-70; -60; -59; -1]%Q capped_3)
    (boot (ticking_env 1))
  = Ret (false, WatchdogPosix.set_restarts [-60; -59; -1]%Q capped_3)
        (read_clock (boot (ticking_env 1))).
Proof.
  rewrite (is_frenetic_counts_recent_resets Py2
             (WatchdogPosix.set_restarts [-70; -60; -59; -1]%Q capped_3) 3
             (boot (ticking_env 1)) eq_refl).
  - reflexivity.
  - repeat constructor; discriminate.
Defined.

(** X16.  The decision of the activity check, in an environment where the
    memory check and the logging do not interfere: under a non-zero cap and
    with the window ordered up to the stamp just appended, [reset] is killed
    exactly when the stamps no older than 60 seconds at the time of the flush,
    the new one included, are more than the cap. *)
Theorem reset_killed_iff_recent_count
  (v : PyVersion) (self : WatchdogPosix.t) (cap : Z) (w : World) :
  WatchdogPosix._max_resets self = Some cap ->
  cap <> 0%Z ->
  calm self (env w) ->
  StronglySorted Qle
    (WatchdogPosix._restarts self ++ [clock (env w) (clock_reads w)]) ->
  killed (WatchdogPosix.reset v self w)
  = (cap <? Z.of_nat
              (List.length
                 (filter (recent (clock (env w) (S (clock_reads w))))
                    (WatchdogPosix._restarts self
                       ++ [clock (env w) (clock_reads w)]))))%Z.
Proof.
  intros Hcap Hnz Hcalm Hs.
  pose proof (reset_calm v self w Hcalm) as Hstep. cbn zeta in Hstep.
  rewrite Hcap in Hstep. unfold next_window in Hstep.
  rewrite (flush_filter_sorted _ _ Hs) in Hstep.
  assert (Ht : truthy (Some cap) = true).
  { cbn. apply negb_true_iff, Z.eqb_neq. exact Hnz. }
  rewrite Ht in Hstep. cbn [andb over_cap] in Hstep.
  destruct (cap <? _)%Z.
  - destruct Hstep as [w' [_ [_ Hk]]]. rewrite Hk. reflexivity.
  - destruct Hstep as [w' [Hr _]]. rewrite Hr. reflexivity.
Qed.

Lemma reset_killed_iff_recent_count_witness :
  killed (WatchdogPosix.reset Py2
            (WatchdogPosix.set_restarts [-70; -3; -2; -1]%Q capped_3)
            (boot (ticking_env 1))) = true
  /\ killed (WatchdogPosix.reset Py2
               (WatchdogPosix.set_restarts [-70; -60; -2; -1]%Q capped_3)
               (boot (ticking_env 1))) = false.
Proof.
  split.
  - rewrite (reset_killed_iff_recent_count Py2
               (WatchdogPosix.set_restarts [-70; -3; -2; -1]%Q capped_3) 3
               (boot (ticking_env 1)) eq_refl).
    + reflexivity.
    + discriminate.
    + apply calm_without_ceiling. reflexivity.
    + repeat constructor; discriminate.
  - rewrite (reset_killed_iff_recent_count Py2
               (WatchdogPosix.set_restarts [-70; -60; -2; -1]%Q capped_3) 3
               (boot (ticking_env 1)) eq_refl).
    + reflexivity.
    + discriminate.
    + apply calm_without_ceiling. reflexivity.
    + repeat constructor; discriminate.
Defined.

(** ** The classes *)

(** X15.  Attribute lookup never reaches a stub of the abstract class through
    an engine: whatever name is looked up on [WatchdogWindows] or on
    [WatchdogPosix], the function found is not one of the stubs that raise
    [NotImplementedError]; every attribute of [Watchdog] is found on
    [WatchdogWindows], which inherits from it, while [WatchdogPosix], which
    does not, has no [watch]. *)
Theorem engines_never_resolve_to_stubs (name : string) (f : Func) :
  class_getattr Watchdog_cls name = Some f ->
  (exists g, class_getattr WatchdogWindows_cls name = Some g
             /\ is_stub g = false)
  /\ (forall g, class_getattr WatchdogWindows_cls name = Some g ->
                is_stub g = false)
  /\ (forall n g, class_getattr WatchdogPosix_cls n = Some g ->
                  is_stub g = false)
  /\ class_getattr WatchdogPosix_cls "watch" = None.
Proof.
  intro Hf.
  assert (Hwin : forall n g, class_getattr WatchdogWindows_cls n = Some g ->
                             is_stub g = false).
  { intros n g. cbn.
    repeat match goal with
           | |- context [String.eqb n ?k] =>
               destruct (String.eqb n k);
               [intro H; injection H as <-; reflexivity |]
           end.
    discriminate. }
  split; [| split; [| split]].
  - revert Hf. cbn.
    repeat match goal with
           | |- context [String.eqb name ?k] =>
               destruct (String.eqb name k);
               [intros _; eexists; split; reflexivity |]
           end.
    discriminate.
  - apply Hwin.
  - intros n g. cbn.
    repeat match goal with
           | |- context [String.eqb n ?k] =>
               destruct (String.eqb n k);
               [intro H; injection H as <-; reflexivity |]
           end.
    discriminate.
  - reflexivity.
Qed.

Lemma engines_never_resolve_to_stubs_witness :
  class_getattr WatchdogWindows_cls "reset" = Some fn_Windows_reset
  /\ is_stub fn_Windows_reset = false.
Proof.
  destruct (engines_never_resolve_to_stubs "reset" fn_Watchdog_reset eq_refl)
    as [_ [H _]].
  split; [reflexivity | apply (H fn_Windows_reset); reflexivity].
Defined.

(** ** The polling loop under any clock *)

(** X17.  Under any clock, with [psutil] present, the loop kills at the first
    check that reads a time strictly past the deadline and not before: when
    the first [n] checks read times up to the deadline and the next one a later
    time, [n] turns return without entering [destruct], and every longer run
    is the death of the process at check number [n + 1], the last effect
    being the kill through [psutil]. *)
Theorem watch_kills_at_first_late_check
  (v : PyVersion) (self : WatchdogWindows.t) (deadline : Q) (n : nat)
  (w : World) :
  psutil (env w) = true ->
  WatchdogWindows.expire_at self = Some deadline ->
  (forall k, (k < n)%nat ->
             (clock (env w) (k + clock_reads w) <= deadline)%Q) ->
  (deadline < clock (env w) (n + clock_reads w))%Q ->
  (exists w0,
      WatchdogWindows.watch v n self w = Ret tt w0
      /\ log_calls w0 = log_calls w)
  /\ exists w',
       (forall m, WatchdogWindows.watch v (S n + m) self w = Kill w')
       /\ clock_reads w' = (S n + clock_reads w)%nat
       /\ exists pre, trace w' = pre ++ [EvPsutilKill].
Proof.
  intros Hps He Hbefore Hpast. split.
  - destruct (watch_survives v self deadline He n w Hbefore)
      as [w0 [Hrun [_ [_ Hl]]]].
    exists w0. split; assumption.
  - destruct (watch_survives v self deadline He n w Hbefore)
      as [w0 [Hrun [He0 [Hr0 _]]]].
    exists (destructed EvPsutilKill (after_check w0)).
    split; [| split].
    + intro m. replace (S n + m)%nat with (n + S m)%nat by lia.
      rewrite watch_app, (bind_Ret _ Hrun).
      cbn [WatchdogWindows.watch]. apply bind_Kill.
      rewrite (watch_body_eq v self w0 deadline He), He0, Hr0.
      apply Qltb_lt in Hpast. rewrite Hpast.
      apply windows_destruct_kills.
      change (env (after_check w0)) with (env w0). rewrite He0. exact Hps.
    + change (clock_reads (destructed EvPsutilKill (after_check w0)))
        with (S (clock_reads w0)).
      rewrite Hr0. reflexivity.
    + destruct (destructed_fields EvPsutilKill (after_check w0))
        as [_ [_ [_ Htr]]].
      eexists. rewrite Htr, app_assoc. reflexivity.
Qed.

Lemma watch_kills_at_first_late_check_witness :
  exists w0 w',
    WatchdogWindows.watch Py3 6
      {| WatchdogWindows._duration := 5;
         WatchdogWindows.expire_at := Some 5%Q |} (boot windows_env)
    = Ret tt w0
    /\ WatchdogWindows.watch Py3 (7 + 0)
         {| WatchdogWindows._duration := 5;
            WatchdogWindows.expire_at := Some 5%Q |} (boot windows_env)
       = Kill w'.
Proof.
  destruct (watch_kills_at_first_late_check Py3
              {| WatchdogWindows._duration := 5;
                 WatchdogWindows.expire_at := Some 5%Q |}
              5 6 (boot windows_env))
    as [[w0 [H0 _]] [w' [Hk _]]].
  - reflexivity.
  - reflexivity.
  - intros k Hk. cbn [clock windows_env env boot clock_reads].
    change 5%Q with (inject_Z 5). rewrite <- Zle_Qle. lia.
  - reflexivity.
  - exists w0, w'. split; [exact H0 | exact (Hk 0%nat)].
Defined.
